(** * DFU back-end for MMC (drivers/dfu/dfu_mmc.c): model and properties

    The driver moves a firmware image to an MMC device, either block by
    block into a raw LBA area or through a staging buffer that is handed
    to a filesystem command.  This file embeds the C functions of
    [dfu_mmc.c] as Rocq functions over an explicit driver state and proves
    the properties of the driver's specification about them.

    Conventions of the embedding.
    - Integers are [Z].  The fixed-width C types are made explicit with
      the wrap functions below: [u32]/[unsigned int]/[size_t] wrap modulo
      [2^32], [u64] modulo [2^64].  [int] and [long] are 32-bit two's
      complement: the driver is built for 32-bit targets (line 154 of the
      source casts a pointer to [unsigned int]).  A [char] has 8 bits.
      Overflow of a signed operation is undefined in C; the model wraps
      there, and the theorems that depend on a signed result say in a
      hypothesis that the exact result fits.
    - The functions the driver calls but does not define (block read and
      write, partition switch, [mmc_init], [get_partition_info],
      [run_command], [getenv]) are fields of a [platform] record.  Each
      takes the history of the calls made so far, so that two calls with
      equal arguments may answer differently.  Every call is appended to
      the [trace] of the state.  [mmc_init] also returns the device
      descriptor as the initialisation leaves it.
    - A dereference of [NULL] and a division by zero make the model
      return [None]. *)

From Stdlib Require Import ZArith List String Ascii Bool Lia.
From Stdlib Require Import Strings.Byte DecimalString HexadecimalString.
Import ListNotations.
Local Open Scope Z_scope.

(** ** Machine integers *)

Definition wrap_unsigned (w x : Z) : Z := x mod 2 ^ w.

Definition wrap_signed (w x : Z) : Z :=
  (x + 2 ^ (w - 1)) mod 2 ^ w - 2 ^ (w - 1).

Definition to_u32 : Z -> Z := wrap_unsigned 32.
Definition to_u64 : Z -> Z := wrap_unsigned 64.
Definition to_ulong : Z -> Z := wrap_unsigned 32.
Definition to_int : Z -> Z := wrap_signed 32.
Definition to_long : Z -> Z := wrap_signed 32.

Definition LONG_MAX : Z := 2 ^ 31 - 1.

(** errno values the driver returns (negated). *)
Definition EIO : Z := 5.
Definition ENODEV : Z := 19.
Definition EINVAL : Z := 22.

(** ** Data model

    [struct dfu_entity] and [struct mmc_internal_data] are declared in
    [dfu.h]; the fields below are the ones [dfu_mmc.c] reads or writes.
    The four function pointers that [dfu_fill_entity_mmc] installs are
    not fields of the model: they always point to the functions of this
    file. *)

Inductive dfu_layout : Type :=
| DFU_RAW_ADDR
| DFU_FS_FAT
| DFU_FS_EXT4
| DFU_LAYOUT_OTHER.   (* any other enumerator, or an entity not yet filled *)

Inductive dfu_op : Type :=
| DFU_OP_READ
| DFU_OP_WRITE
| DFU_OP_SIZE.

Inductive dfu_device_type : Type :=
| DFU_DEV_NONE
| DFU_DEV_MMC.

Record mmc_internal_data : Type := {
  lba_start : Z;        (* unsigned int *)
  lba_size : Z;         (* unsigned int *)
  lba_blk_size : Z;     (* unsigned int *)
  hw_partition : Z;     (* int; negative: no hardware partition selected *)
  dev : Z;              (* unsigned int *)
  part : Z              (* unsigned int *)
}.

Record dfu_entity : Type := {
  name : string;
  dev_num : Z;
  dev_type : dfu_device_type;
  layout : dfu_layout;
  data_mmc : mmc_internal_data;
  inited : Z
}.

Definition set_data (dfu : dfu_entity) (d : mmc_internal_data) : dfu_entity :=
  {| name := name dfu; dev_num := dev_num dfu; dev_type := dev_type dfu;
     layout := layout dfu; data_mmc := d; inited := inited dfu |}.

Definition set_layout (dfu : dfu_entity) (l : dfu_layout) : dfu_entity :=
  {| name := name dfu; dev_num := dev_num dfu; dev_type := dev_type dfu;
     layout := l; data_mmc := data_mmc dfu; inited := inited dfu |}.

(** [struct mmc] is declared in [mmc.h], a header that is not under
    src/.  There the hardware partition recorded as active is
    [char part_num], one byte, where the driver works with [int]: line 35
    stores an [int] into it and keeps the low 8 bits only, and lines 27
    and 63 read it back as an [int].  Plain [char] is taken as signed; a
    compiler for which it is unsigned reads the bytes 128 to 255 as 128 to
    255 and not as -128 to -1, and agrees on the bytes 0 to 127. *)
Definition to_char : Z -> Z := wrap_signed 8.

(** The byte line 35 stores. *)
Definition char_of_int (x : Z) : byte :=
  match Byte.of_N (Z.to_N (x mod 256)) with
  | Some b => b
  | None => x00
  end.

(** The value lines 27 and 63 read. *)
Definition int_of_char (b : byte) : Z := to_char (Z.of_N (Byte.to_N b)).

(** The fields of [struct mmc] the driver uses.  The record holds the
    byte of [part_num]; [part_num] below is the value the program reads
    from it. *)
Record mmc : Type := {
  part_num_field : byte;   (* char part_num *)
  read_bl_len : Z          (* native read block size *)
}.

Definition part_num (m : mmc) : Z := int_of_char (part_num_field m).

Record disk_partition_t : Type := {
  start : Z;
  size : Z;
  blksz : Z
}.

(** ** Calls to the platform and console output *)

Inductive event : Type :=
| mmc_switch_part_call (dev_num part_num : Z)
| block_read_call (dev start blkcnt buffer : Z)
| block_write_call (dev start blkcnt buffer : Z)
| mmc_init_call (dev_num : Z)
| get_partition_info_call (dev_num part : Z)
| run_command_call (cmd : string)
| getenv_call (varname : string).

(** The messages of [puts], [printf] and [error], one constructor per
    call site, with the values that the format prints. *)
Inductive message : Type :=
| msg_cannot_switch (part : Z)                      (* line 32 *)
| msg_exceed_area                                   (* line 58 *)
| msg_op_not_supported                              (* line 82 *)
| msg_mmc_operation_failed                          (* line 86 *)
| msg_layout_not_supported (fn : string) (l : dfu_layout)   (* lines 131, 195, 233, 253 *)
| msg_read_error                                    (* line 165 *)
| msg_wrong_file_size                               (* line 172 *)
| msg_invalid_number_of_arguments                   (* line 287 *)
| msg_no_mmc_device (dev_num : Z)                   (* line 302 *)
| msg_no_mmc_init                                   (* line 307 *)
| msg_no_partition (mmcpart mmcdev : Z)             (* line 334 *)
| msg_memory_layout_not_supported (entity_type : string).   (* line 348 *)

(** The functions of the platform.  Their results are values of the C
    result type: an [int] for [mmc_switch_part], [mmc_init] and
    [run_command] (0 is success), a 32-bit block count for [block_read]
    and [block_write]; [get_partition_info] answers [None] where the C
    function returns a value other than 0. *)
Record platform : Type := {
  mmc_switch_part : list event -> Z -> Z -> Z;
  block_read : list event -> Z -> Z -> Z -> Z -> Z;
  block_write : list event -> Z -> Z -> Z -> Z -> Z;
  mmc_init : list event -> Z -> mmc -> Z * mmc;
  get_partition_info : list event -> Z -> Z -> option disk_partition_t;
  run_command : list event -> string -> Z;
  getenv : list event -> string -> option string
}.

(** ** Driver state

    [mmc_devices] is the list that [find_mmc_device] searches, keyed by
    device number.  [dfu_file_buf] and [dfu_file_buf_len] are the two
    file-scope variables of lines 19-21. *)

Record state : Type := {
  mmc_devices : list (Z * mmc);
  dfu_file_buf : list byte;
  dfu_file_buf_len : Z;
  trace : list event;
  console : list message
}.

Definition set_mmc_devices (st : state) (l : list (Z * mmc)) : state :=
  {| mmc_devices := l; dfu_file_buf := dfu_file_buf st;
     dfu_file_buf_len := dfu_file_buf_len st; trace := trace st;
     console := console st |}.

Definition set_file_buf (st : state) (b : list byte) (n : Z) : state :=
  {| mmc_devices := mmc_devices st; dfu_file_buf := b;
     dfu_file_buf_len := n; trace := trace st; console := console st |}.

Definition add_event (st : state) (e : event) : state :=
  {| mmc_devices := mmc_devices st; dfu_file_buf := dfu_file_buf st;
     dfu_file_buf_len := dfu_file_buf_len st; trace := trace st ++ [e];
     console := console st |}.

Definition add_message (st : state) (m : message) : state :=
  {| mmc_devices := mmc_devices st; dfu_file_buf := dfu_file_buf st;
     dfu_file_buf_len := dfu_file_buf_len st; trace := trace st;
     console := console st ++ [m] |}.

Fixpoint lookup_mmc (d : Z) (l : list (Z * mmc)) : option mmc :=
  match l with
  | [] => None
  | (k, m) :: r => if k =? d then Some m else lookup_mmc d r
  end.

Fixpoint store_mmc (d : Z) (m' : mmc) (l : list (Z * mmc)) : list (Z * mmc) :=
  match l with
  | [] => []
  | (k, m) :: r => if k =? d then (k, m') :: r else (k, m) :: store_mmc d m' r
  end.

(** ** The monad of the driver: state, and [None] for a fault *)

Definition M (A : Type) : Type := state -> option (A * state).

Definition ret {A : Type} (a : A) : M A := fun st => Some (a, st).

Definition bind {A B : Type} (m : M A) (k : A -> M B) : M B :=
  fun st => match m st with
            | Some (a, st') => k a st'
            | None => None
            end.

Definition fault {A : Type} : M A := fun _ => None.

Declare Scope drv_scope.
Delimit Scope drv_scope with drv.
Notation "x <- m ;; k" := (bind m (fun x => k))
  (at level 61, m at next level, right associativity) : drv_scope.
Notation "m ;; k" := (bind m (fun _ => k))
  (at level 61, right associativity) : drv_scope.
Local Open Scope drv_scope.

(** A call to the platform: the answer depends on the history, and the
    call is recorded. *)
Definition call {A : Type} (e : event) (answer : list event -> A) : M A :=
  fun st => Some (answer (trace st), add_event st e).

Definition print (m : message) : M unit :=
  fun st => Some (tt, add_message st m).

(** A [struct mmc *]: [None] is [NULL], [Some d] points to the entry of
    device [d] in [mmc_devices]. *)
Definition mmc_ptr : Type := option Z.

Definition find_mmc_device (d : Z) : M mmc_ptr :=
  fun st => Some (match lookup_mmc d (mmc_devices st) with
                  | Some _ => Some d
                  | None => None
                  end, st).

Definition load_mmc (p : mmc_ptr) : M mmc :=
  fun st => match p with
            | Some d => match lookup_mmc d (mmc_devices st) with
                        | Some m => Some (m, st)
                        | None => None
                        end
            | None => None
            end.

Definition store_part_num (p : mmc_ptr) (v : Z) : M unit :=
  m <- load_mmc p ;;
  fun st => match p with
            | Some d =>
                Some (tt, set_mmc_devices st
                            (store_mmc d {| part_num_field := char_of_int v;
                                            read_bl_len := read_bl_len m |}
                                       (mmc_devices st)))
            | None => None
            end.

(** What [mmc_init] leaves in the descriptor of device [d]. *)
Definition store_mmc_desc (d : Z) (m : mmc) : M unit :=
  fun st => Some (tt, set_mmc_devices st (store_mmc d m (mmc_devices st))).

(** Unsigned division as the hardware does it: no result for a zero
    divisor. *)
Definition udiv (a b : Z) : M Z :=
  if b =? 0 then fault else ret (a / b).

(** Modelled from the spec: [lldiv], an inline function of [div64.h],
    which is not under src/.  "floor(offset / lba_blk_size)": the
    quotient of a [u64] dividend by a [u32] divisor. *)
Definition lldiv (dividend divisor : Z) : M Z :=
  udiv (to_u64 dividend) (to_u32 divisor).

(** [x] rounded up to the nearest multiple of [a]. *)
Definition round_up (x a : Z) : Z :=
  if x mod a =? 0 then x else x + (a - x mod a).

(** Modelled from the spec: the [ALIGN] macro, which comes from a common
    header that is not under src/.  The specification says of line 51:
    "Round length up to the nearest multiple of lba_blk_size".  The
    result has the type of the first argument, here [long]. *)
Definition ALIGN (x a : Z) : Z := to_long (round_up x a).

(** ** Raw block access *)

Section Driver.

Variable hw : platform.

(** Lines 23-38. *)
Definition mmc_access_part (dfu : dfu_entity) (mmc : mmc_ptr) (part : Z) : M Z :=
  m <- load_mmc mmc ;;
  if part =? part_num m then ret 0
  else
    r <- call (mmc_switch_part_call (dev_num dfu) part)
              (fun h => mmc_switch_part hw h (dev_num dfu) part) ;;
    if negb (r =? 0) then
      print (msg_cannot_switch part) ;;
      ret r
    else
      store_part_num mmc part ;;
      ret 0.

(** The two values [mmc_block_op] computes from its arguments before it
    checks the range (lines 53-55). *)
Definition blk_start_of (d : mmc_internal_data) (quotient : Z) : Z :=
  to_u32 (lba_start d + to_u32 quotient).

Definition exceeds_area (d : mmc_internal_data) (blk_start blk_count : Z) : bool :=
  to_u32 (blk_start + blk_count) >? to_u32 (lba_start d + lba_size d).

(** Lines 40-99.  The result is the return value and the value left in
    [*len]. *)
Definition mmc_block_op (op : dfu_op) (dfu : dfu_entity)
    (offset : Z) (buf : Z) (len : Z) : M (Z * Z) :=
  let d := data_mmc dfu in
  mmc <- find_mmc_device (dev_num dfu) ;;
  let len := ALIGN len (lba_blk_size d) in
  q <- lldiv offset (lba_blk_size d) ;;
  let blk_start := blk_start_of d q in
  blk_count <- udiv (to_u32 len) (lba_blk_size d) ;;
  if exceeds_area d blk_start blk_count then
    print msg_exceed_area ;;
    ret (- EINVAL, len)
  else
    sw <- (if hw_partition d >=? 0 then
             m <- load_mmc mmc ;;
             r <- mmc_access_part dfu mmc (hw_partition d) ;;
             ret (part_num m, r)
           else ret (0, 0)) ;;
    let part_num_bkp := fst sw in
    if negb (snd sw =? 0) then ret (snd sw, len)
    else
      n <- match op with
           | DFU_OP_READ =>
               load_mmc mmc ;;
               call (block_read_call (dev_num dfu) blk_start blk_count buf)
                    (fun h => block_read hw h (dev_num dfu) blk_start blk_count buf)
           | DFU_OP_WRITE =>
               load_mmc mmc ;;
               call (block_write_call (dev_num dfu) blk_start blk_count buf)
                    (fun h => block_write hw h (dev_num dfu) blk_start blk_count buf)
           | DFU_OP_SIZE =>
               print msg_op_not_supported ;;
               ret 0
           end ;;
      if negb (n =? blk_count) then
        print msg_mmc_operation_failed ;;
        (if hw_partition d >=? 0 then
           mmc_access_part dfu mmc part_num_bkp ;; ret tt
         else ret tt) ;;
        ret (- EIO, len)
      else
        r <- (if hw_partition d >=? 0 then
                mmc_access_part dfu mmc part_num_bkp
              else ret 0) ;;
        if negb (r =? 0) then ret (r, len)
        else ret (0, len).

End Driver.

(** ** Library routines the driver uses on strings and memory *)

(** [strcmp(a, b) == 0]. *)
Definition streq (a b : string) : bool := String.eqb a b.

(** Modelled from the spec: [strsep], a routine of the string library,
    which is not under src/.  The descriptor is "text, space-separated";
    the model is the documented behaviour of the routine for the
    separator [" "].  One step on a non-null string: the token up to the
    first space (it may be empty), and what follows that space ([None]:
    no space was found, the pointer becomes [NULL]). *)
Fixpoint split_at_space (s : string) : string * option string :=
  match s with
  | EmptyString => (EmptyString, None)
  | String c r =>
      if Ascii.eqb c " "%char then (EmptyString, Some r)
      else let (tok, rest) := split_at_space r in (String c tok, rest)
  end.

(** [strsep(&s, " ")]: the token returned ([None] when [s] is [NULL])
    and the new value of [s]. *)
Definition strsep (s : option string) : option string * option string :=
  match s with
  | None => (None, None)
  | Some str => let (tok, rest) := split_at_space str in (Some tok, rest)
  end.

(** The value of a character as a digit of base 16 ([isxdigit] and the
    conversion of [simple_strtoul]). *)
Definition xdigit_value (c : ascii) : option Z :=
  let n := Z.of_N (N_of_ascii c) in
  if (48 <=? n) && (n <=? 57) then Some (n - 48)
  else if (97 <=? n) && (n <=? 102) then Some (n - 87)
  else if (65 <=? n) && (n <=? 70) then Some (n - 55)
  else None.

Fixpoint strtoul_digits (base : Z) (cp : string) (result : Z) : Z :=
  match cp with
  | EmptyString => result
  | String c r =>
      match xdigit_value c with
      | Some v =>
          if v <? base then strtoul_digits base r (to_ulong (result * base + v))
          else result
      | None => result
      end
  end.

(** Modelled from the spec: [simple_strtoul], a library routine outside
    the driver.  "Numeric tokens are parsed permissively: a 0x or 0
    prefix selects base 16/8, otherwise base 10; a malformed numeral
    resolves to 0."  A [base] other than 0 is kept, except that the
    prefix [0x] before a hexadecimal digit still selects 16. *)
Definition simple_strtoul (cp : string) (base : Z) : Z :=
  match cp with
  | String c0 r =>
      if Ascii.eqb c0 "0"%char then
        match r with
        | String c1 (String c2 r2) =>
            if Ascii.eqb c1 "x"%char &&
               match xdigit_value c2 with Some _ => true | None => false end
            then strtoul_digits 16 (String c2 r2) 0
            else strtoul_digits (if base =? 0 then 8 else base) r 0
        | _ => strtoul_digits (if base =? 0 then 8 else base) r 0
        end
      else strtoul_digits (if base =? 0 then 10 else base) cp 0
  | EmptyString => 0
  end.

(** [%d] of an [int] and [%x] of an [unsigned int] or [unsigned long]. *)
Definition fmt_d (x : Z) : string :=
  DecimalString.NilZero.string_of_int (Z.to_int (to_int x)).

Definition fmt_x (x : Z) : string :=
  HexadecimalString.NilZero.string_of_uint (N.to_hex_uint (Z.to_N (to_u32 x))).

(** [memcpy(dst + off, src, n)] into an array: a fault when the copy
    leaves the array or reads more than [src] holds. *)
Definition memcpy_at (dst : list byte) (off : Z) (src : list byte) (n : Z)
  : option (list byte) :=
  if (0 <=? off) && (0 <=? n) && (off + n <=? Z.of_nat (List.length dst))
     && (n <=? Z.of_nat (List.length src))
  then Some (firstn (Z.to_nat off) dst ++ firstn (Z.to_nat n) src
             ++ skipn (Z.to_nat (off + n)) dst)
  else None.

(** A caller's buffer: where it is and what it holds. *)
Record buffer : Type := {
  buf_addr : Z;
  buf_bytes : list byte
}.

(** ** Staging buffer, filesystem commands and the medium operations *)

Section Medium.

Variable hw : platform.

(** The size of [dfu_file_buf] (a configuration constant of the board)
    and the address at which the array is linked. *)
Variable CONFIG_SYS_DFU_MAX_FILE_SIZE : Z.
Variable dfu_file_buf_addr : Z.

(** Lines 101-113. *)
Definition mmc_file_buffer (dfu : dfu_entity) (buf : list byte) (len : Z)
  : M (Z * Z) :=
  fun st =>
    if to_long (dfu_file_buf_len st + len) >? CONFIG_SYS_DFU_MAX_FILE_SIZE then
      Some ((- EINVAL, len), set_file_buf st (dfu_file_buf st) 0)
    else
      match memcpy_at (dfu_file_buf st) (dfu_file_buf_len st) buf len with
      | Some b =>
          Some ((0, len), set_file_buf st b (to_long (dfu_file_buf_len st + len)))
      | None => None
      end.

(** Lines 115-179.  [cmd_buf] is taken to be large enough for the
    command.  The three enumerators of [dfu_op] leave the [default] of
    line 146 without a case. *)
Definition mmc_file_op (op : dfu_op) (dfu : dfu_entity) (buf : Z) (len : Z)
  : M (Z * Z) :=
  match
    match layout dfu with
    | DFU_FS_FAT => Some "fat"%string
    | DFU_FS_EXT4 => Some "ext4"%string
    | _ => None
    end
  with
  | None =>
      print (msg_layout_not_supported "mmc_file_op" (layout dfu)) ;;
      ret (-1, len)
  | Some fsname =>
      let opname :=
        match op with
        | DFU_OP_READ => "load"
        | DFU_OP_WRITE => "write"
        | DFU_OP_SIZE => "size"
        end%string in
      let d := data_mmc dfu in
      let cmd_buf :=
        (fsname ++ opname ++ " mmc " ++ fmt_d (dev d) ++ ":" ++ fmt_d (part d))%string in
      let cmd_buf :=
        match op with
        | DFU_OP_SIZE => cmd_buf
        | _ => (cmd_buf ++ " 0x" ++ fmt_x buf)%string
        end in
      let cmd_buf := (cmd_buf ++ " " ++ name dfu)%string in
      let cmd_buf :=
        match op with
        | DFU_OP_WRITE => (cmd_buf ++ " " ++ fmt_x len)%string
        | _ => cmd_buf
        end in
      r <- call (run_command_call cmd_buf) (fun h => run_command hw h cmd_buf) ;;
      if negb (r =? 0) then
        print msg_read_error ;;
        ret (r, len)
      else
        match op with
        | DFU_OP_WRITE => ret (r, len)
        | _ =>
            str_env <- call (getenv_call "filesize")
                            (fun h => getenv hw h "filesize"%string) ;;
            match str_env with
            | None =>
                print msg_wrong_file_size ;;
                ret (-1, len)
            | Some str => ret (r, to_long (simple_strtoul str 16))
            end
        end
  end.

(** Lines 181-200. *)
Definition dfu_write_medium_mmc (dfu : dfu_entity) (offset : Z)
    (buf : buffer) (len : Z) : M (Z * Z) :=
  match layout dfu with
  | DFU_RAW_ADDR => mmc_block_op hw DFU_OP_WRITE dfu offset (buf_addr buf) len
  | DFU_FS_FAT | DFU_FS_EXT4 => mmc_file_buffer dfu (buf_bytes buf) len
  | _ =>
      print (msg_layout_not_supported "dfu_write_medium_mmc" (layout dfu)) ;;
      ret (-1, len)
  end.

(** Lines 202-216.  [mmc_file_op] is given the address of
    [dfu_file_buf_len]; for [DFU_OP_WRITE] it only reads it. *)
Definition dfu_flush_medium_mmc (dfu : dfu_entity) : M Z :=
  match layout dfu with
  | DFU_RAW_ADDR => ret 0
  | _ =>
      fun st =>
        match mmc_file_op DFU_OP_WRITE dfu dfu_file_buf_addr
                          (dfu_file_buf_len st) st with
        | Some ((r, len'), st') =>
            Some (r, set_file_buf st' (dfu_file_buf st') 0)
        | None => None
        end
  end.

(** Lines 218-237.  [len0] is the value the local [len] happens to hold
    before [mmc_file_op] is called with its address. *)
Definition dfu_get_medium_size_mmc (dfu : dfu_entity) (len0 : Z) : M Z :=
  match layout dfu with
  | DFU_RAW_ADDR =>
      ret (to_long (to_u32 (lba_size (data_mmc dfu) * lba_blk_size (data_mmc dfu))))
  | DFU_FS_FAT | DFU_FS_EXT4 =>
      r <- mmc_file_op DFU_OP_SIZE dfu 0 len0 ;;
      if fst r <? 0 then ret (fst r) else ret (snd r)
  | _ =>
      print (msg_layout_not_supported "dfu_get_medium_size_mmc" (layout dfu)) ;;
      ret (-1)
  end.

(** Lines 239-258. *)
Definition dfu_read_medium_mmc (dfu : dfu_entity) (offset : Z)
    (buf : buffer) (len : Z) : M (Z * Z) :=
  match layout dfu with
  | DFU_RAW_ADDR => mmc_block_op hw DFU_OP_READ dfu offset (buf_addr buf) len
  | DFU_FS_FAT | DFU_FS_EXT4 => mmc_file_op DFU_OP_READ dfu (buf_addr buf) len
  | _ =>
      print (msg_layout_not_supported "dfu_read_medium_mmc" (layout dfu)) ;;
      ret (-1, len)
  end.

End Medium.

(** ** Descriptor parser *)

(** The loop of lines 284-290: [n] tokens taken with [strsep]; [None]
    as soon as one of them is [NULL]. *)
Fixpoint fill_argv (n : nat) (s : option string)
  : option (list string) * option string :=
  match n with
  | O => (Some [], s)
  | S n' =>
      match strsep s with
      | (None, s') => (None, s')
      | (Some tok, s') =>
          match fill_argv n' s' with
          | (Some toks, s'') => (Some (tok :: toks), s'')
          | (None, s'') => (None, s'')
          end
      end
  end.

Definition set_hw_partition (d : mmc_internal_data) (v : Z) : mmc_internal_data :=
  {| lba_start := lba_start d; lba_size := lba_size d;
     lba_blk_size := lba_blk_size d; hw_partition := v;
     dev := dev d; part := part d |}.

Definition set_lba (d : mmc_internal_data) (s n b : Z) : mmc_internal_data :=
  {| lba_start := s; lba_size := n; lba_blk_size := b;
     hw_partition := hw_partition d; dev := dev d; part := part d |}.

Definition set_dev_part (d : mmc_internal_data) (v p : Z) : mmc_internal_data :=
  {| lba_start := lba_start d; lba_size := lba_size d;
     lba_blk_size := lba_blk_size d; hw_partition := hw_partition d;
     dev := v; part := p |}.

Section Parser.

Variable hw : platform.

(** Lines 352-365, reached by the four supported types. *)
Definition fill_entity_tail (dfu : dfu_entity) (entity_type : string)
    (second_arg third_arg : Z) : dfu_entity :=
  let dfu :=
    if negb (streq entity_type "raw") then
      set_data dfu (set_dev_part (data_mmc dfu) second_arg third_arg)
    else dfu in
  {| name := name dfu; dev_num := dev_num dfu; dev_type := DFU_DEV_MMC;
     layout := layout dfu; data_mmc := data_mmc dfu; inited := 0 |}.

(** Lines 273-366.  The result is the return value and the entity as the
    function leaves it. *)
Definition dfu_fill_entity_mmc (dfu : dfu_entity) (s : string)
  : M (Z * dfu_entity) :=
  match fill_argv 3 (Some s) with
  | (Some [entity_type; argv1; argv2], s) =>
      let second_arg := to_u32 (simple_strtoul argv1 0) in
      let third_arg := to_u32 (simple_strtoul argv2 0) in
      mmc <- find_mmc_device (dev_num dfu) ;;
      match mmc with
      | None =>
          print (msg_no_mmc_device (dev_num dfu)) ;;
          ret (- ENODEV, dfu)
      | Some _ =>
          m <- load_mmc mmc ;;
          r <- call (mmc_init_call (dev_num dfu))
                    (fun h => mmc_init hw h (dev_num dfu) m) ;;
          store_mmc_desc (dev_num dfu) (snd r) ;;
          if negb (fst r =? 0) then
            print msg_no_mmc_init ;;
            ret (- ENODEV, dfu)
          else
            let dfu := set_data dfu (set_hw_partition (data_mmc dfu) (- EINVAL)) in
            if streq entity_type "raw" then
              m <- load_mmc mmc ;;
              let dfu := set_layout dfu DFU_RAW_ADDR in
              let dfu := set_data dfu (set_lba (data_mmc dfu) second_arg third_arg
                                               (to_u32 (read_bl_len m))) in
              dfu <- match s with
                     | Some _ =>
                         match strsep s with
                         | (Some tok, s') =>
                             if streq tok "mmcpart" then
                               match s' with
                               | Some num =>
                                   ret (set_data dfu
                                          (set_hw_partition (data_mmc dfu)
                                             (to_int (simple_strtoul num 0))))
                               | None => fault
                               end
                             else ret dfu
                         | (None, _) => fault
                         end
                     | None => ret dfu
                     end ;;
              ret (0, fill_entity_tail dfu entity_type second_arg third_arg)
            else if streq entity_type "part" then
              let mmcdev := to_int second_arg in
              let mmcpart := to_int third_arg in
              info <- call (get_partition_info_call (dev_num dfu) mmcpart)
                           (fun h => get_partition_info hw h (dev_num dfu) mmcpart) ;;
              match info with
              | None =>
                  print (msg_no_partition mmcpart mmcdev) ;;
                  ret (- ENODEV, dfu)
              | Some partinfo =>
                  let dfu := set_layout dfu DFU_RAW_ADDR in
                  let dfu := set_data dfu
                               (set_lba (data_mmc dfu) (to_u32 (start partinfo))
                                        (to_u32 (size partinfo))
                                        (to_u32 (blksz partinfo))) in
                  ret (0, fill_entity_tail dfu entity_type second_arg third_arg)
              end
            else if streq entity_type "fat" then
              ret (0, fill_entity_tail (set_layout dfu DFU_FS_FAT)
                                       entity_type second_arg third_arg)
            else if streq entity_type "ext4" then
              ret (0, fill_entity_tail (set_layout dfu DFU_FS_EXT4)
                                       entity_type second_arg third_arg)
            else
              print (msg_memory_layout_not_supported entity_type) ;;
              ret (- ENODEV, dfu)
      end
  | _ =>
      print msg_invalid_number_of_arguments ;;
      ret (- ENODEV, dfu)
  end.

End Parser.

(** ** Definitions used to state the properties *)

(** The ceiling of [x / a] for a positive [a], as the specification
    writes it. *)
Definition ceil_div (x a : Z) : Z := - ((- x) / a).

(** The block range [mmc_block_op] computes for an offset and a length
    (lines 53-55), for a block size in the range of [unsigned int]. *)
Definition blk_start_at (dfu : dfu_entity) (offset : Z) : Z :=
  blk_start_of (data_mmc dfu) (to_u64 offset / lba_blk_size (data_mmc dfu)).

Definition blk_count_at (dfu : dfu_entity) (len : Z) : Z :=
  to_u32 (ALIGN len (lba_blk_size (data_mmc dfu))) / lba_blk_size (data_mmc dfu).

(** The partition recorded as active for device [d]. *)
Definition active_part (d : Z) (st : state) : option Z :=
  option_map part_num (lookup_mmc d (mmc_devices st)).

(** The block transfer of lines 72-83: the call it makes and the count
    the device reports for it after the history [h]. *)
Definition transfer_events (op : dfu_op) (d blk_start blk_count buf : Z)
  : list event :=
  match op with
  | DFU_OP_READ => [block_read_call d blk_start blk_count buf]
  | DFU_OP_WRITE => [block_write_call d blk_start blk_count buf]
  | DFU_OP_SIZE => []
  end.

Definition transfer_answer (hw : platform) (op : dfu_op) (h : list event)
    (d blk_start blk_count buf : Z) : Z :=
  match op with
  | DFU_OP_READ => block_read hw h d blk_start blk_count buf
  | DFU_OP_WRITE => block_write hw h d blk_start blk_count buf
  | DFU_OP_SIZE => 0
  end.

(** The block ranges of the transfers of a trace, and its partition
    switches. *)
Definition transfers (tr : list event) : list (Z * Z) :=
  flat_map (fun e => match e with
                     | block_read_call _ s c _ => [(s, c)]
                     | block_write_call _ s c _ => [(s, c)]
                     | _ => []
                     end) tr.

Definition is_switch (e : event) : bool :=
  match e with
  | mmc_switch_part_call _ _ => true
  | _ => false
  end.

Definition switch_calls (tr : list event) : list event := filter is_switch tr.

(** The part of [mmc_block_op] after the range check (lines 62-98), in
    the three steps of the source: switch to the configured partition,
    transfer, switch back. *)
Section BlockTransfer.

Variable hw : platform.

Definition switch_in (dfu : dfu_entity) (mmc : mmc_ptr) : M (Z * Z) :=
  if hw_partition (data_mmc dfu) >=? 0 then
    m <- load_mmc mmc ;;
    r <- mmc_access_part hw dfu mmc (hw_partition (data_mmc dfu)) ;;
    ret (part_num m, r)
  else ret (0, 0).

Definition transfer_blocks (op : dfu_op) (dfu : dfu_entity) (mmc : mmc_ptr)
    (blk_start blk_count buf : Z) : M Z :=
  match op with
  | DFU_OP_READ =>
      load_mmc mmc ;;
      call (block_read_call (dev_num dfu) blk_start blk_count buf)
           (fun h => block_read hw h (dev_num dfu) blk_start blk_count buf)
  | DFU_OP_WRITE =>
      load_mmc mmc ;;
      call (block_write_call (dev_num dfu) blk_start blk_count buf)
           (fun h => block_write hw h (dev_num dfu) blk_start blk_count buf)
  | DFU_OP_SIZE =>
      print msg_op_not_supported ;;
      ret 0
  end.

Definition switch_back (dfu : dfu_entity) (mmc : mmc_ptr) (len n blk_count
    part_num_bkp : Z) : M (Z * Z) :=
  if negb (n =? blk_count) then
    print msg_mmc_operation_failed ;;
    (if hw_partition (data_mmc dfu) >=? 0 then
       mmc_access_part hw dfu mmc part_num_bkp ;; ret tt
     else ret tt) ;;
    ret (- EIO, len)
  else
    r <- (if hw_partition (data_mmc dfu) >=? 0 then
            mmc_access_part hw dfu mmc part_num_bkp
          else ret 0) ;;
    if negb (r =? 0) then ret (r, len)
    else ret (0, len).

Definition mmc_block_transfer (op : dfu_op) (dfu : dfu_entity) (buf len : Z)
    (mmc : mmc_ptr) (blk_start blk_count : Z) : M (Z * Z) :=
  sw <- switch_in dfu mmc ;;
  if negb (snd sw =? 0) then ret (snd sw, len)
  else
    n <- transfer_blocks op dfu mmc blk_start blk_count buf ;;
    switch_back dfu mmc len n blk_count (fst sw).

End BlockTransfer.

(** Whether the access has to switch partitions: a hardware partition is
    configured and it is not the one recorded as active in [m].  The
    calls and answers of the switch before the transfer and of the
    switch back after it. *)
Definition needs_switch (dfu : dfu_entity) (m : mmc) : bool :=
  (hw_partition (data_mmc dfu) >=? 0)
  && negb (hw_partition (data_mmc dfu) =? part_num m).

Definition switch_in_events (dfu : dfu_entity) (m : mmc) : list event :=
  if needs_switch dfu m
  then [mmc_switch_part_call (dev_num dfu) (hw_partition (data_mmc dfu))]
  else [].

Definition switch_in_answer (hw : platform) (dfu : dfu_entity) (m : mmc)
    (h : list event) : Z :=
  if needs_switch dfu m
  then mmc_switch_part hw h (dev_num dfu) (hw_partition (data_mmc dfu))
  else 0.

(** After a switch to the configured partition the field [part_num]
    holds that number as a [char].  The switch back is needed when the
    partition from before is not the number the field holds then. *)
Definition needs_switch_back (dfu : dfu_entity) (m : mmc) : bool :=
  needs_switch dfu m
  && negb (part_num m =? to_char (hw_partition (data_mmc dfu))).

Definition switch_back_events (dfu : dfu_entity) (m : mmc) : list event :=
  if needs_switch_back dfu m
  then [mmc_switch_part_call (dev_num dfu) (part_num m)]
  else [].

Definition switch_back_answer (hw : platform) (dfu : dfu_entity) (m : mmc)
    (h : list event) : Z :=
  if needs_switch_back dfu m
  then mmc_switch_part hw h (dev_num dfu) (part_num m)
  else 0.

(** ** Platforms, devices and entities of the examples *)

(** A platform on which every call succeeds and every transfer is
    complete. *)
Definition hw_ok : platform := {|
  mmc_switch_part := fun _ _ _ => 0;
  block_read := fun _ _ _ blkcnt _ => blkcnt;
  block_write := fun _ _ _ blkcnt _ => blkcnt;
  mmc_init := fun _ _ m => (0, m);
  get_partition_info := fun _ _ _ => None;
  run_command := fun _ _ => 0;
  getenv := fun _ _ => None
|}.

(** A platform that writes no block at all. *)
Definition hw_short : platform := {|
  mmc_switch_part := fun _ _ _ => 0;
  block_read := fun _ _ _ blkcnt _ => blkcnt;
  block_write := fun _ _ _ _ _ => 0;
  mmc_init := fun _ _ m => (0, m);
  get_partition_info := fun _ _ _ => None;
  run_command := fun _ _ => 0;
  getenv := fun _ _ => None
|}.

(** The same, and the switch back to partition 0 fails as well. *)
Definition hw_short_stuck : platform := {|
  mmc_switch_part := fun _ _ part_num => if part_num =? 0 then -1 else 0;
  block_read := fun _ _ _ blkcnt _ => blkcnt;
  block_write := fun _ _ _ _ _ => 0;
  mmc_init := fun _ _ m => (0, m);
  get_partition_info := fun _ _ _ => None;
  run_command := fun _ _ => 0;
  getenv := fun _ _ => None
|}.

Definition mmc0 : mmc := {| part_num_field := x00; read_bl_len := 512 |}.

(** One device, number 0, with partition 0 active; an empty staging
    buffer of eight bytes. *)
Definition st_one : state := {|
  mmc_devices := [(0, mmc0)];
  dfu_file_buf := repeat x00 8;
  dfu_file_buf_len := 0;
  trace := [];
  console := []
|}.

Definition raw_entity (lba_start lba_size hw_partition : Z) : dfu_entity := {|
  name := "image";
  dev_num := 0;
  dev_type := DFU_DEV_MMC;
  layout := DFU_RAW_ADDR;
  data_mmc := {| lba_start := lba_start; lba_size := lba_size;
                 lba_blk_size := 512; hw_partition := hw_partition;
                 dev := 0; part := 0 |};
  inited := 0
|}.

(** A raw entity whose area is the 128 blocks from block 4294967040, at
    the top of the range of [u32]. *)
Definition top_entity : dfu_entity := raw_entity 4294967040 128 (- EINVAL).

Definition fs_entity (l : dfu_layout) (dev part : Z) : dfu_entity := {|
  name := "image";
  dev_num := 0;
  dev_type := DFU_DEV_MMC;
  layout := l;
  data_mmc := {| lba_start := 0; lba_size := 0; lba_blk_size := 0;
                 hw_partition := - EINVAL; dev := dev; part := part |};
  inited := 0
|}.

(** A platform whose filesystem command fails. *)
Definition hw_no_fs : platform := {|
  mmc_switch_part := fun _ _ _ => 0;
  block_read := fun _ _ _ blkcnt _ => blkcnt;
  block_write := fun _ _ _ blkcnt _ => blkcnt;
  mmc_init := fun _ _ m => (0, m);
  get_partition_info := fun _ _ _ => None;
  run_command := fun _ _ => 1;
  getenv := fun _ _ => None
|}.

(** A state with five bytes staged in a buffer of eight. *)
Definition st_staged : state := {|
  mmc_devices := [(0, mmc0)];
  dfu_file_buf := repeat x01 5 ++ repeat x00 3;
  dfu_file_buf_len := 5;
  trace := [];
  console := []
|}.

(** The name by which [mmc_file_op] calls the filesystem of a layout,
    and the command it builds for a write (lines 150-159). *)
Definition fs_name (l : dfu_layout) : option string :=
  match l with
  | DFU_FS_FAT => Some "fat"%string
  | DFU_FS_EXT4 => Some "ext4"%string
  | _ => None
  end.

Definition file_write_command (fsname : string) (dfu : dfu_entity)
    (buf len : Z) : string :=
  ((((fsname ++ "write" ++ " mmc " ++ fmt_d (dev (data_mmc dfu)) ++ ":"
      ++ fmt_d (part (data_mmc dfu)))
     ++ " 0x" ++ fmt_x buf)
    ++ " " ++ name dfu)
   ++ " " ++ fmt_x len)%string.

(** An entity before [dfu_fill_entity_mmc] has filled it. *)
Definition blank_entity : dfu_entity := {|
  name := "image";
  dev_num := 0;
  dev_type := DFU_DEV_NONE;
  layout := DFU_LAYOUT_OTHER;
  data_mmc := {| lba_start := 0; lba_size := 0; lba_blk_size := 0;
                 hw_partition := 0; dev := 0; part := 0 |};
  inited := 0
|}.

(** The first field of a descriptor and the number of its spaces, as
    [strsep] sees them. *)
Definition first_field (s : string) : string := fst (split_at_space s).

Fixpoint count_spaces (s : string) : nat :=
  match s with
  | EmptyString => O
  | String c r => if Ascii.eqb c " "%char then S (count_spaces r) else count_spaces r
  end.

Definition supported_type (t : string) : bool :=
  streq t "raw" || streq t "part" || streq t "fat" || streq t "ext4".

(** The tokens of a string in the usual sense of "whitespace-separated":
    the maximal runs of characters that are not white space. *)
Definition is_space (c : ascii) : bool :=
  let n := N_of_ascii c in
  (n =? 32)%N || ((9 <=? n)%N && (n <=? 13)%N).

Fixpoint whitespace_tokens_from (cur : string) (s : string) : list string :=
  match s with
  | EmptyString => if streq cur "" then [] else [cur]
  | String c r =>
      if is_space c then
        (if streq cur "" then [] else [cur]) ++ whitespace_tokens_from "" r
      else whitespace_tokens_from (cur ++ String c "") r
  end.

Definition whitespace_tokens (s : string) : list string :=
  whitespace_tokens_from "" s.

(** ** Tactics *)

(** Unfolds the monad in the goal. *)
Ltac run := cbv [bind ret load_mmc call print store_part_num]; cbn [fst snd].

(** Runs [dfu_fill_entity_mmc] on a literal descriptor up to line 311,
    given that the device is found ([Hm]) and initialises ([Hinit]). *)
Ltac fill_entity_start Hm Hinit :=
  unfold dfu_fill_entity_mmc;
  match goal with
  | |- context [fill_argv 3 (Some ?s)] =>
      let v := eval vm_compute in (fill_argv 3 (Some s)) in
      change (fill_argv 3 (Some s)) with v
  end;
  cbv beta iota;
  repeat match goal with
  | |- context [to_u32 (simple_strtoul ?a 0)] =>
      let v := eval vm_compute in (to_u32 (simple_strtoul a 0)) in
      change (to_u32 (simple_strtoul a 0)) with v
  end;
  cbv [bind ret call print find_mmc_device load_mmc store_mmc_desc];
  rewrite Hm; cbn [mmc_devices add_event trace]; rewrite Hm, Hinit;
  cbn [fst snd Z.eqb negb];
  repeat match goal with
  | |- context [streq ?a ?b] =>
      let v := eval vm_compute in (streq a b) in
      change (streq a b) with v
  end;
  cbv beta iota;
  cbn [mmc_devices set_mmc_devices].

(** ** Definitions used to state further properties *)

(** A block range that lies in the area of an entity. *)
Definition within_area (d : mmc_internal_data) (t : Z * Z) : Prop :=
  lba_start d <= fst t /\ fst t + snd t <= lba_start d + lba_size d.

(** The staging buffer and its length are the same in two states. *)
Definition same_staging (st st' : state) : Prop :=
  dfu_file_buf st' = dfu_file_buf st /\
  dfu_file_buf_len st' = dfu_file_buf_len st.

(** An operation that, whenever it returns, leaves the staging buffer as
    it found it. *)
Definition keeps_staging {A : Type} (m : M A) : Prop :=
  forall st a st', m st = Some (a, st') -> same_staging st st'.

(** The command [mmc_file_op] builds (lines 150-159), for each
    operation. *)
Definition file_op_command (op : dfu_op) (fsname : string) (dfu : dfu_entity)
    (buf len : Z) : string :=
  let opname :=
    match op with
    | DFU_OP_READ => "load"
    | DFU_OP_WRITE => "write"
    | DFU_OP_SIZE => "size"
    end%string in
  let cmd_buf :=
    (fsname ++ opname ++ " mmc " ++ fmt_d (dev (data_mmc dfu)) ++ ":"
     ++ fmt_d (part (data_mmc dfu)))%string in
  let cmd_buf :=
    match op with
    | DFU_OP_SIZE => cmd_buf
    | _ => (cmd_buf ++ " 0x" ++ fmt_x buf)%string
    end in
  let cmd_buf := (cmd_buf ++ " " ++ name dfu)%string in
  match op with
  | DFU_OP_WRITE => (cmd_buf ++ " " ++ fmt_x len)%string
  | _ => cmd_buf
  end.

(** A descriptor of three fields, with or without a suffix after a
    further space. *)
Definition descriptor (entity_type arg2 arg3 : string) (suffix : option string)
  : string :=
  match suffix with
  | None => entity_type ++ " " ++ arg2 ++ " " ++ arg3
  | Some x => entity_type ++ " " ++ arg2 ++ " " ++ arg3 ++ " " ++ x
  end%string.

(** What [dfu_fill_entity_mmc] leaves in the entity for a descriptor it
    accepts, given the layout and the data it has chosen. *)
Definition filled (dfu : dfu_entity) (l : dfu_layout) (d : mmc_internal_data)
  : dfu_entity :=
  {| name := name dfu; dev_num := dev_num dfu; dev_type := DFU_DEV_MMC;
     layout := l; data_mmc := d; inited := 0 |}.

(** A platform on which device 0 has no partition table but partition 1
    of [start = 2048], [size = 4096] and blocks of 512 bytes. *)
Definition hw_part : platform := {|
  mmc_switch_part := fun _ _ _ => 0;
  block_read := fun _ _ _ blkcnt _ => blkcnt;
  block_write := fun _ _ _ blkcnt _ => blkcnt;
  mmc_init := fun _ _ m => (0, m);
  get_partition_info := fun _ _ p =>
    if p =? 1 then Some {| start := 2048; size := 4096; blksz := 512 |} else None;
  run_command := fun _ _ => 0;
  getenv := fun _ name => if String.eqb name "filesize" then Some "1f40"%string else None
|}.

(** A platform whose partition switch always fails. *)
Definition hw_no_switch : platform := {|
  mmc_switch_part := fun _ _ _ => -1;
  block_read := fun _ _ _ blkcnt _ => blkcnt;
  block_write := fun _ _ _ blkcnt _ => blkcnt;
  mmc_init := fun _ _ m => (-1, m);
  get_partition_info := fun _ _ _ => None;
  run_command := fun _ _ => 0;
  getenv := fun _ _ => None
|}.

(** The state in which [mmc_init] leaves the driver: the call is
    recorded and the descriptor of device [d] is [m']. *)
Definition after_init (st : state) (d : Z) (m' : mmc) : state :=
  set_mmc_devices (add_event st (mmc_init_call d))
    (store_mmc d m' (mmc_devices st)).

(** The hardware partition that lines 322-325 take from what follows the
    third field: [Some p] for the value left in [hw_partition], [None]
    when the keyword [mmcpart] is the last field and [simple_strtoul] is
    given [NULL]. *)
Definition mmcpart_of (suffix : option string) : option Z :=
  match suffix with
  | None => Some (- EINVAL)
  | Some x =>
      let (tok, rest) := split_at_space x in
      if streq tok "mmcpart" then
        match rest with
        | Some num => Some (to_int (simple_strtoul num 0))
        | None => None
        end
      else Some (- EINVAL)
  end.

(** The data of a raw entity. *)
Definition raw_data (dfu : dfu_entity) (s n b hwp : Z) : mmc_internal_data :=
  {| lba_start := s; lba_size := n; lba_blk_size := b; hw_partition := hwp;
     dev := dev (data_mmc dfu); part := part (data_mmc dfu) |}.

(** The data of a FAT or ext4 entity. *)
Definition fs_data (dfu : dfu_entity) (v p : Z) : mmc_internal_data :=
  {| lba_start := lba_start (data_mmc dfu); lba_size := lba_size (data_mmc dfu);
     lba_blk_size := lba_blk_size (data_mmc dfu); hw_partition := - EINVAL;
     dev := v; part := p |}.

(** A platform whose partition switch always fails, on a device that
    initialises. *)
Definition hw_no_switch_init_ok : platform := {|
  mmc_switch_part := fun _ _ _ => -1;
  block_read := fun _ _ _ blkcnt _ => blkcnt;
  block_write := fun _ _ _ blkcnt _ => blkcnt;
  mmc_init := fun _ _ m => (0, m);
  get_partition_info := fun _ _ _ => None;
  run_command := fun _ _ => 0;
  getenv := fun _ _ => None
|}.

(** * Properties *)

(** ** Machine integers and rounding *)

Lemma to_u32_small x : 0 <= x < 2 ^ 32 -> to_u32 x = x.
Proof. intros H. unfold to_u32, wrap_unsigned. apply Z.mod_small. exact H. Qed.

Lemma to_u32_range x : 0 <= to_u32 x < 2 ^ 32.
Proof. unfold to_u32, wrap_unsigned. apply Z.mod_pos_bound. reflexivity. Qed.

Lemma to_u64_small x : 0 <= x < 2 ^ 64 -> to_u64 x = x.
Proof. intros H. unfold to_u64, wrap_unsigned. apply Z.mod_small. exact H. Qed.

Lemma to_u32_add_idem a b : to_u32 (a + to_u32 b) = to_u32 (a + b).
Proof. unfold to_u32, wrap_unsigned. apply Zplus_mod_idemp_r. Qed.

Lemma to_long_small x : - 2 ^ 31 <= x <= LONG_MAX -> to_long x = x.
Proof.
  unfold to_long, wrap_signed, LONG_MAX. intros H.
  change (2 ^ (32 - 1)) with (2 ^ 31).
  rewrite Z.mod_small; lia.
Qed.

Lemma round_up_ceil x a : 0 < a -> round_up x a = ceil_div x a * a.
Proof.
  intros Ha. unfold round_up, ceil_div.
  pose proof (Z.div_mod x a ltac:(lia)) as Hx.
  pose proof (Z.mod_pos_bound x a Ha) as Hr.
  destruct (x mod a =? 0) eqn:E.
  - apply Z.eqb_eq in E.
    assert (Hq : (- x) / a = - (x / a)).
    { symmetry. apply Z.div_unique with (r := 0); lia. }
    rewrite Hq. lia.
  - apply Z.eqb_neq in E.
    assert (Hq : (- x) / a = - (x / a) - 1).
    { symmetry. apply Z.div_unique with (r := a - x mod a); lia. }
    rewrite Hq. lia.
Qed.

Lemma round_up_bounds x a : 0 < a -> x <= round_up x a < x + a.
Proof.
  intros Ha. unfold round_up.
  pose proof (Z.mod_pos_bound x a Ha).
  destruct (x mod a =? 0) eqn:E; [lia|]. apply Z.eqb_neq in E. lia.
Qed.

Lemma ALIGN_ceil x a :
  0 < a -> 0 <= x -> ceil_div x a * a <= LONG_MAX ->
  ALIGN x a = ceil_div x a * a.
Proof.
  intros Ha Hx Hfit. unfold ALIGN.
  rewrite <- round_up_ceil in * by exact Ha.
  pose proof (round_up_bounds x a Ha).
  apply to_long_small. lia.
Qed.

(** ** The [char] field of the active partition *)

Lemma to_char_small x : - 128 <= x <= 127 -> to_char x = x.
Proof.
  intros H. unfold to_char, wrap_signed.
  change (2 ^ (8 - 1)) with 128. change (2 ^ 8) with 256.
  rewrite Z.mod_small; lia.
Qed.

Lemma to_char_range x : - 128 <= to_char x <= 127.
Proof.
  unfold to_char, wrap_signed.
  change (2 ^ (8 - 1)) with 128. change (2 ^ 8) with 256.
  pose proof (Z.mod_pos_bound (x + 128) 256 ltac:(lia)). lia.
Qed.

Lemma to_char_mod x : to_char (x mod 256) = to_char x.
Proof.
  unfold to_char, wrap_signed.
  change (2 ^ (8 - 1)) with 128. change (2 ^ 8) with 256.
  rewrite Zplus_mod_idemp_l. reflexivity.
Qed.

Lemma to_char_low_bits x : to_char x mod 256 = x mod 256.
Proof.
  unfold to_char, wrap_signed.
  change (2 ^ (8 - 1)) with 128. change (2 ^ 8) with 256.
  rewrite Zminus_mod_idemp_l. f_equal. lia.
Qed.

(** What is read back from the field after a store. *)
Lemma int_of_char_of_int x : int_of_char (char_of_int x) = to_char x.
Proof.
  unfold int_of_char, char_of_int.
  pose proof (Z.mod_pos_bound x 256 ltac:(lia)) as Hb.
  destruct (Byte.of_N (Z.to_N (x mod 256))) as [b|] eqn:E.
  - apply Byte.to_of_N in E. rewrite E, Z2N.id by lia. apply to_char_mod.
  - apply Byte.of_N_None_iff in E. lia.
Qed.

(** The number read from the field is a [char], and storing it again
    gives the same number. *)
Lemma part_num_range m : - 128 <= part_num m <= 127.
Proof. unfold part_num, int_of_char. apply to_char_range. Qed.

Lemma to_char_part_num m : to_char (part_num m) = part_num m.
Proof. apply to_char_small, part_num_range. Qed.

(** Two numbers that differ by a multiple of 256 are the same [char]. *)
Lemma to_char_congruent x y : (x - y) mod 256 = 0 -> to_char x = to_char y.
Proof.
  intros H. apply Z.mod_divide in H; [|lia]. destruct H as [k Hk].
  unfold to_char, wrap_signed.
  change (2 ^ (8 - 1)) with 128. change (2 ^ 8) with 256.
  replace (x + 128) with (y + 128 + k * 256) by lia.
  rewrite Z_mod_plus_full. reflexivity.
Qed.

(** ** The steps of a raw block access *)

Lemma lookup_store_same d m' l m :
  lookup_mmc d l = Some m -> lookup_mmc d (store_mmc d m' l) = Some m'.
Proof.
  induction l as [|[k x] r IH]; simpl; intros H; [discriminate|].
  destruct (k =? d) eqn:E; simpl; rewrite E; auto.
Qed.

Section BlockOpFacts.

Variable hw : platform.

Lemma mmc_block_op_eq op dfu offset buf len st m :
  lookup_mmc (dev_num dfu) (mmc_devices st) = Some m ->
  0 < lba_blk_size (data_mmc dfu) < 2 ^ 32 ->
  mmc_block_op hw op dfu offset buf len st =
    if exceeds_area (data_mmc dfu) (blk_start_at dfu offset) (blk_count_at dfu len)
    then Some ((- EINVAL, ALIGN len (lba_blk_size (data_mmc dfu))),
               add_message st msg_exceed_area)
    else mmc_block_transfer hw op dfu buf (ALIGN len (lba_blk_size (data_mmc dfu)))
           (Some (dev_num dfu)) (blk_start_at dfu offset) (blk_count_at dfu len) st.
Proof.
  intros Hm HB.
  assert (E : (lba_blk_size (data_mmc dfu) =? 0) = false) by (apply Z.eqb_neq; lia).
  unfold mmc_block_op, blk_start_at, blk_count_at, lldiv, udiv, find_mmc_device.
  rewrite (to_u32_small (lba_blk_size (data_mmc dfu))) by lia.
  rewrite E. cbv zeta. unfold bind at 1. rewrite Hm.
  unfold bind at 1, ret at 1. unfold bind at 1, ret at 1.
  destruct (exceeds_area _ _ _); reflexivity.
Qed.

Lemma mmc_access_part_eq dfu part st m :
  lookup_mmc (dev_num dfu) (mmc_devices st) = Some m ->
  mmc_access_part hw dfu (Some (dev_num dfu)) part st =
    if part =? part_num m then Some (0, st)
    else if mmc_switch_part hw (trace st) (dev_num dfu) part =? 0
         then Some (0, set_mmc_devices
                         (add_event st (mmc_switch_part_call (dev_num dfu) part))
                         (store_mmc (dev_num dfu)
                            {| part_num_field := char_of_int part;
                               read_bl_len := read_bl_len m |}
                            (mmc_devices st)))
         else Some (mmc_switch_part hw (trace st) (dev_num dfu) part,
                    add_message
                      (add_event st (mmc_switch_part_call (dev_num dfu) part))
                      (msg_cannot_switch part)).
Proof.
  intros Hm. unfold mmc_access_part. run. rewrite Hm.
  destruct (part =? part_num m); [reflexivity|].
  cbn [mmc_devices add_event].
  destruct (mmc_switch_part hw (trace st) (dev_num dfu) part =? 0); cbn [negb].
  - change (mmc_devices (add_event st (mmc_switch_part_call (dev_num dfu) part)))
      with (mmc_devices st).
    rewrite Hm. reflexivity.
  - reflexivity.
Qed.

Lemma transfer_blocks_eq op dfu bs bc buf st m :
  lookup_mmc (dev_num dfu) (mmc_devices st) = Some m ->
  exists st',
    transfer_blocks hw op dfu (Some (dev_num dfu)) bs bc buf st
      = Some (transfer_answer hw op (trace st) (dev_num dfu) bs bc buf, st') /\
    trace st' = trace st ++ transfer_events op (dev_num dfu) bs bc buf /\
    mmc_devices st' = mmc_devices st.
Proof.
  intros Hm. unfold transfer_blocks, transfer_answer, transfer_events.
  destruct op; run; rewrite ?Hm; eexists; (split; [reflexivity|]);
    cbn [trace mmc_devices add_event add_message]; rewrite ?app_nil_r; auto.
Qed.

(** What the part of [mmc_block_op] after the range check does, in every
    case: the value it returns, the calls it makes, and the partition it
    leaves recorded as active. *)
Lemma mmc_block_transfer_spec op dfu buf len bs bc st m :
  lookup_mmc (dev_num dfu) (mmc_devices st) = Some m ->
  let d := dev_num dfu in
  let r1 := switch_in_answer hw dfu m (trace st) in
  let h1 := trace st ++ switch_in_events dfu m in
  let n := transfer_answer hw op h1 d bs bc buf in
  let h2 := h1 ++ transfer_events op d bs bc buf in
  let r2 := switch_back_answer hw dfu m h2 in
  exists st',
    mmc_block_transfer hw op dfu buf len (Some d) bs bc st
      = Some ((if r1 =? 0 then if n =? bc then r2 else - EIO else r1, len), st') /\
    trace st' = (if r1 =? 0 then h2 ++ switch_back_events dfu m else h1) /\
    active_part d st'
      = Some (if (r1 =? 0) && needs_switch_back dfu m && negb (r2 =? 0)
              then to_char (hw_partition (data_mmc dfu)) else part_num m).
Proof.
  intros Hm d r1 h1 n h2 r2. subst d r1 h1 n h2 r2.
  unfold mmc_block_transfer, switch_in, switch_back, switch_in_answer,
    switch_in_events, switch_back_answer, switch_back_events, needs_switch_back,
    needs_switch, active_part.
  destruct (hw_partition (data_mmc dfu) >=? 0) eqn:Ehw; cbn [andb].
  - (* a hardware partition is configured *)
    unfold bind at 1. unfold bind at 1. unfold load_mmc at 1. rewrite Hm.
    unfold bind at 1. rewrite (mmc_access_part_eq _ _ _ _ Hm).
    destruct (hw_partition (data_mmc dfu) =? part_num m) eqn:Esame; cbn [negb andb].
    + (* and it is the active one: no switch *)
      unfold ret at 1. cbn [fst snd negb Z.eqb]. rewrite app_nil_r.
      unfold bind at 1.
      destruct (transfer_blocks_eq op dfu bs bc buf st m Hm) as (st1 & -> & Ht1 & Hd1).
      assert (Hm1 : lookup_mmc (dev_num dfu) (mmc_devices st1) = Some m)
        by (rewrite Hd1; exact Hm).
      destruct (_ =? bc) eqn:En; cbn [negb].
      * unfold bind at 1. rewrite (mmc_access_part_eq _ _ _ _ Hm1).
        rewrite Z.eqb_refl. cbn. eexists. split; [reflexivity|].
        rewrite Ht1, app_nil_r, Hm1. auto.
      * run.
        assert (Hm2 : lookup_mmc (dev_num dfu)
                        (mmc_devices (add_message st1 msg_mmc_operation_failed))
                      = Some m) by exact Hm1.
        rewrite (mmc_access_part_eq _ _ _ _ Hm2), Z.eqb_refl.
        eexists. split; [reflexivity|].
        cbn [trace mmc_devices add_message]. rewrite Ht1, app_nil_r, Hm1. auto.
    + (* and it is another one: switch, transfer, switch back *)
      destruct (Z.eqb_spec (mmc_switch_part hw (trace st) (dev_num dfu)
                              (hw_partition (data_mmc dfu))) 0) as [E1|E1].
      * unfold ret at 1. cbn [fst snd negb Z.eqb andb].
        set (m1 := {| part_num_field := char_of_int (hw_partition (data_mmc dfu));
                      read_bl_len := read_bl_len m |}).
        set (e1 := mmc_switch_part_call (dev_num dfu) (hw_partition (data_mmc dfu))).
        set (st1 := set_mmc_devices (add_event st e1) _).
        assert (Hm1 : lookup_mmc (dev_num dfu) (mmc_devices st1) = Some m1)
          by (apply lookup_store_same with (m := m); exact Hm).
        unfold bind at 1.
        destruct (transfer_blocks_eq op dfu bs bc buf st1 m1 Hm1) as (st2 & -> & Ht2 & Hd2).
        assert (Hm2 : lookup_mmc (dev_num dfu) (mmc_devices st2) = Some m1)
          by (rewrite Hd2; exact Hm1).
        assert (Hp1 : part_num m1 = to_char (hw_partition (data_mmc dfu)))
          by (apply int_of_char_of_int).
        assert (Hback : forall x,
                  part_num {| part_num_field := char_of_int (part_num m);
                              read_bl_len := x |} = part_num m).
        { intros x. unfold part_num at 1. cbn [part_num_field].
          rewrite int_of_char_of_int. apply to_char_part_num. }
        change (trace st1) with (trace st ++ [e1]) in *.
        destruct (part_num m =? to_char (hw_partition (data_mmc dfu))) eqn:Eback;
          cbn [negb].
        -- (* the field already holds the partition from before *)
           apply Z.eqb_eq in Eback.
           assert (Hskip : (part_num m =? part_num m1) = true)
             by (rewrite Hp1; apply Z.eqb_eq; exact Eback).
           destruct (_ =? bc) eqn:En; cbn [negb].
           ++ unfold bind at 1. rewrite (mmc_access_part_eq _ _ _ _ Hm2), Hskip.
              cbn [negb Z.eqb]. unfold ret.
              eexists. split; [reflexivity|].
              rewrite Ht2, app_nil_r, Hm2. cbn [option_map].
              rewrite Hp1, Eback. auto.
           ++ run.
              assert (Hm3 : lookup_mmc (dev_num dfu)
                              (mmc_devices (add_message st2 msg_mmc_operation_failed))
                            = Some m1) by exact Hm2.
              rewrite (mmc_access_part_eq _ _ _ _ Hm3), Hskip.
              eexists. split; [reflexivity|].
              cbn [trace mmc_devices add_message].
              rewrite Ht2, app_nil_r, Hm2. cbn [option_map].
              rewrite Hp1, Eback. auto.
        -- (* the switch back is needed *)
           assert (Hne : (part_num m =? part_num m1) = false)
             by (rewrite Hp1; exact Eback).
           destruct (_ =? bc) eqn:En; cbn [negb].
           ++ unfold bind at 1. rewrite (mmc_access_part_eq _ _ _ _ Hm2), Hne, Ht2.
              destruct (Z.eqb_spec (mmc_switch_part hw
                          ((trace st ++ [e1]) ++ transfer_events op (dev_num dfu) bs bc buf)
                          (dev_num dfu) (part_num m)) 0) as [E2|E2]; cbn [negb].
              ** rewrite E2. eexists. split; [reflexivity|].
                 cbn [trace mmc_devices set_mmc_devices add_event].
                 rewrite Ht2. erewrite lookup_store_same by exact Hm2.
                 cbn [option_map]. rewrite Hback. auto.
              ** apply Z.eqb_neq in E2. rewrite E2. cbn [negb].
                 eexists. split; [reflexivity|].
                 cbn [trace mmc_devices add_event add_message].
                 rewrite Ht2, Hm2. cbn [option_map]. rewrite Hp1. auto.
           ++ run.
              assert (Hm3 : lookup_mmc (dev_num dfu)
                              (mmc_devices (add_message st2 msg_mmc_operation_failed))
                            = Some m1) by exact Hm2.
              rewrite (mmc_access_part_eq _ _ _ _ Hm3), Hne.
              change (trace (add_message st2 msg_mmc_operation_failed)) with (trace st2).
              rewrite Ht2.
              destruct (Z.eqb_spec (mmc_switch_part hw
                          ((trace st ++ [e1]) ++ transfer_events op (dev_num dfu) bs bc buf)
                          (dev_num dfu) (part_num m)) 0) as [E2|E2]; cbn [negb];
                eexists; (split; [reflexivity|]);
                cbn [trace mmc_devices set_mmc_devices add_event add_message].
              ** rewrite Ht2. erewrite lookup_store_same by exact Hm2.
                 cbn [option_map]. rewrite Hback. auto.
              ** rewrite Ht2, Hm2. cbn [option_map]. rewrite Hp1. auto.
      * pose proof E1 as E1'. apply Z.eqb_neq in E1'.
        unfold ret at 1. cbn [fst snd]. rewrite E1'. cbn [negb andb].
        run. eexists. split; [reflexivity|].
        cbn [trace mmc_devices add_event add_message]. rewrite Hm. auto.
  - (* no hardware partition is configured *)
    unfold bind at 1. unfold ret at 1. cbn [fst snd negb Z.eqb].
    rewrite app_nil_r. unfold bind at 1.
    destruct (transfer_blocks_eq op dfu bs bc buf st m Hm) as (st1 & -> & Ht1 & Hd1).
    assert (Hm1 : lookup_mmc (dev_num dfu) (mmc_devices st1) = Some m)
      by (rewrite Hd1; exact Hm).
    destruct (_ =? bc) eqn:En; cbn [negb]; run;
      eexists; (split; [reflexivity|]);
      cbn [trace mmc_devices add_message]; rewrite Ht1, app_nil_r, Hm1; auto.
Qed.

End BlockOpFacts.

(** ** Raw layout: the medium operations are the block operation *)

Lemma dfu_write_medium_mmc_raw hw CAP dfu offset buf len :
  layout dfu = DFU_RAW_ADDR ->
  dfu_write_medium_mmc hw CAP dfu offset buf len
    = mmc_block_op hw DFU_OP_WRITE dfu offset (buf_addr buf) len.
Proof. intros Hl. unfold dfu_write_medium_mmc. rewrite Hl. reflexivity. Qed.

Lemma dfu_read_medium_mmc_raw hw dfu offset buf len :
  layout dfu = DFU_RAW_ADDR ->
  dfu_read_medium_mmc hw dfu offset buf len
    = mmc_block_op hw DFU_OP_READ dfu offset (buf_addr buf) len.
Proof. intros Hl. unfold dfu_read_medium_mmc. rewrite Hl. reflexivity. Qed.

(** The size of a raw area of 20 blocks of 512 bytes. *)
Example dfu_get_medium_size_mmc_raw :
  dfu_get_medium_size_mmc hw_ok (raw_entity 10 20 (- EINVAL)) 0 st_one
    = Some (10240, st_one).
Proof. reflexivity. Qed.

(** A block size of 0 makes the division of line 54 fault. *)
Lemma mmc_block_op_zero_blk_size hw op dfu offset buf len st :
  lba_blk_size (data_mmc dfu) = 0 ->
  mmc_block_op hw op dfu offset buf len st = None.
Proof.
  intros HB. unfold mmc_block_op, lldiv, udiv, find_mmc_device. rewrite HB.
  reflexivity.
Qed.

(** ** Raw block access: the range check *)

Section RangeCheck.

Variable hw : platform.

(** An access the range check refuses returns [-EINVAL] and calls
    nothing. *)
Lemma mmc_block_op_refused op dfu offset buf len st m :
  lookup_mmc (dev_num dfu) (mmc_devices st) = Some m ->
  0 < lba_blk_size (data_mmc dfu) < 2 ^ 32 ->
  exceeds_area (data_mmc dfu) (blk_start_at dfu offset) (blk_count_at dfu len) = true ->
  mmc_block_op hw op dfu offset buf len st
    = Some ((- EINVAL, ALIGN len (lba_blk_size (data_mmc dfu))),
            add_message st msg_exceed_area).
Proof.
  intros Hm HB Hex. rewrite (mmc_block_op_eq hw _ _ _ _ _ _ _ Hm HB), Hex.
  reflexivity.
Qed.

(** As long as neither sum leaves the range of [u32], the check of line
    56 compares the exact sums. *)
Lemma exceeds_area_exact d blk_start blk_count :
  0 <= blk_start + blk_count < 2 ^ 32 ->
  0 <= lba_start d + lba_size d < 2 ^ 32 ->
  exceeds_area d blk_start blk_count
    = (blk_start + blk_count >? lba_start d + lba_size d).
Proof.
  intros H1 H2. unfold exceeds_area. rewrite !to_u32_small by assumption.
  reflexivity.
Qed.

End RangeCheck.

(** C1 (the code departs from the claim).  An entity whose area is the
    128 blocks from 4294967040, a write of 8192 bytes at byte offset
    122880: the access starts at block 4294967280 and has 16 blocks, so
    [blk_start + blk_count] is [2^32], above [lba_start + lba_size =
    4294967168].  In [u32] the sum is 0, the check of line 56 lets the
    access through, and the sixteen blocks are written. *)
Theorem C1_range_check_wraps :
  blk_start_at top_entity 122880 = 4294967280 /\
  blk_count_at top_entity 8192 = 16 /\
  blk_start_at top_entity 122880 + blk_count_at top_entity 8192
    > lba_start (data_mmc top_entity) + lba_size (data_mmc top_entity) /\
  mmc_block_op hw_ok DFU_OP_WRITE top_entity 122880 0 8192 st_one
    = Some ((0, 8192), add_event st_one (block_write_call 0 4294967280 16 0)).
Proof.
  repeat split; vm_compute; reflexivity.
Qed.

(** ** Raw block access: length, start block and block count *)

Lemma transfers_app a b : transfers (a ++ b) = transfers a ++ transfers b.
Proof. unfold transfers. apply flat_map_app. Qed.

Lemma switch_calls_app a b : switch_calls (a ++ b) = switch_calls a ++ switch_calls b.
Proof. unfold switch_calls. apply filter_app. Qed.

Lemma transfers_switch_in dfu m : transfers (switch_in_events dfu m) = [].
Proof. unfold switch_in_events. destruct (needs_switch dfu m); reflexivity. Qed.

Lemma transfers_switch_back dfu m : transfers (switch_back_events dfu m) = [].
Proof. unfold switch_back_events. destruct (needs_switch_back dfu m); reflexivity. Qed.

Lemma transfers_transfer_events op d bs bc buf :
  transfers (transfer_events op d bs bc buf)
    = match op with DFU_OP_SIZE => [] | _ => [(bs, bc)] end.
Proof. destruct op; reflexivity. Qed.

Lemma blk_start_at_eq dfu offset :
  0 <= offset < 2 ^ 64 ->
  blk_start_at dfu offset
    = (lba_start (data_mmc dfu) + offset / lba_blk_size (data_mmc dfu)) mod 2 ^ 32.
Proof.
  intros Ho. unfold blk_start_at, blk_start_of.
  rewrite to_u32_add_idem, to_u64_small by exact Ho. reflexivity.
Qed.

Lemma blk_count_at_eq dfu len :
  0 < lba_blk_size (data_mmc dfu) -> 0 <= len ->
  ceil_div len (lba_blk_size (data_mmc dfu)) * lba_blk_size (data_mmc dfu) <= LONG_MAX ->
  blk_count_at dfu len
    = ceil_div len (lba_blk_size (data_mmc dfu)) * lba_blk_size (data_mmc dfu)
      / lba_blk_size (data_mmc dfu).
Proof.
  intros HB Hl Hfit. unfold blk_count_at.
  rewrite ALIGN_ceil by assumption.
  rewrite to_u32_small; [reflexivity|].
  rewrite <- round_up_ceil by exact HB.
  pose proof (round_up_bounds len _ HB).
  rewrite <- round_up_ceil in Hfit by exact HB.
  unfold LONG_MAX in Hfit. lia.
Qed.

(** C2, as amended.  For a block size [B > 0], a length [L >= 0] whose
    rounded value fits a [long] and an offset [O] (a [u64]): the length
    left in [*len] is [ceil(L / B) * B]; the access makes at most one
    block transfer, and makes one when it returns 0; the transfer starts
    at block [(lba_start + floor(O / B)) mod 2^32], which is
    [lba_start + floor(O / B)] when that sum is below [2^32], and has
    [ceil(L / B) * B / B] blocks. *)
Theorem C2_block_range hw op dfu offset buf len st m :
  lookup_mmc (dev_num dfu) (mmc_devices st) = Some m ->
  0 < lba_blk_size (data_mmc dfu) < 2 ^ 32 ->
  0 <= offset < 2 ^ 64 ->
  0 <= len ->
  ceil_div len (lba_blk_size (data_mmc dfu)) * lba_blk_size (data_mmc dfu) <= LONG_MAX ->
  let B := lba_blk_size (data_mmc dfu) in
  let len' := ceil_div len B * B in
  let blk_start := (lba_start (data_mmc dfu) + offset / B) mod 2 ^ 32 in
  let blk_count := len' / B in
  exists r st',
    mmc_block_op hw op dfu offset buf len st = Some ((r, len'), st') /\
    (transfers (trace st') = transfers (trace st) \/
     transfers (trace st') = transfers (trace st) ++ [(blk_start, blk_count)]) /\
    (r = 0 -> op <> DFU_OP_SIZE ->
     transfers (trace st') = transfers (trace st) ++ [(blk_start, blk_count)]) /\
    (0 <= lba_start (data_mmc dfu) ->
     lba_start (data_mmc dfu) + offset / B < 2 ^ 32 ->
     blk_start = lba_start (data_mmc dfu) + offset / B).
Proof.
  intros Hm HB Ho Hl Hfit B len' blk_start blk_count.
  assert (Hlast : 0 <= lba_start (data_mmc dfu) ->
                  lba_start (data_mmc dfu) + offset / B < 2 ^ 32 ->
                  blk_start = lba_start (data_mmc dfu) + offset / B).
  { intros H0 H1. subst blk_start. apply Z.mod_small.
    assert (0 <= offset / B) by (apply Z.div_pos; subst B; lia). lia. }
  rewrite (mmc_block_op_eq hw _ _ _ _ _ _ _ Hm HB).
  rewrite ALIGN_ceil by (assumption || lia). fold B len'.
  destruct (exceeds_area _ _ _) eqn:Hex.
  - exists (- EINVAL), (add_message st msg_exceed_area).
    repeat split; auto. unfold EINVAL. intros; lia.
  - rewrite blk_start_at_eq by exact Ho.
    rewrite blk_count_at_eq by (assumption || lia).
    fold B len' blk_start blk_count.
    destruct (mmc_block_transfer_spec hw op dfu buf len' blk_start blk_count st m Hm)
      as (st' & Hrun & Htr & _).
    cbv zeta in Hrun, Htr. rewrite Hrun.
    eexists; exists st'. split; [reflexivity|].
    destruct (switch_in_answer hw dfu m (trace st) =? 0) eqn:E1.
    + rewrite Htr, !transfers_app, transfers_switch_in, transfers_switch_back,
        transfers_transfer_events, !app_nil_r.
      destruct op; repeat split; auto; try congruence.
      left. apply app_nil_r.
    + rewrite Htr, transfers_app, transfers_switch_in, app_nil_r.
      repeat split; auto.
      intros Hr. apply Z.eqb_neq in E1. contradiction.
Qed.

Lemma C2_block_range_witness :
  exists st',
    mmc_block_op hw_ok DFU_OP_WRITE (raw_entity 100 50 (- EINVAL)) 1024 0 700 st_one
      = Some ((0, 1024), st') /\
    transfers (trace st') = [(102, 2)].
Proof.
  destruct (C2_block_range hw_ok DFU_OP_WRITE (raw_entity 100 50 (- EINVAL))
              1024 0 700 st_one mmc0)
    as (r & st' & Hrun & _ & Hone & _).
  - reflexivity.
  - simpl. lia.
  - lia.
  - lia.
  - vm_compute. discriminate.
  - pose proof Hrun as Hr. vm_compute in Hr. injection Hr as Hr _. subst r.
    exists st'. split; [exact Hrun|].
    apply Hone; [reflexivity | discriminate].
Defined.

(** C2 (counterexample).  Area of 50 blocks from block 100, blocks of
    512 bytes, a write of one block at byte offset [2^41]: [floor(O / B)]
    is [2^32], so the claim puts the start at block [100 + 2^32]; the
    driver writes block 100. *)
Lemma C2_counterexample :
  mmc_block_op hw_ok DFU_OP_WRITE (raw_entity 100 50 (- EINVAL)) (2 ^ 41) 0 512 st_one
    = Some ((0, 512), add_event st_one (block_write_call 0 100 1 0)) /\
  100 <> lba_start (data_mmc (raw_entity 100 50 (- EINVAL))) + 2 ^ 41 / 512.
Proof.
  split; vm_compute; [reflexivity | discriminate].
Qed.

(** ** Raw block access: transfers and partition switches *)

(** C5.  When the range check passes and the switch to the configured
    partition (if one is needed) succeeds, the access makes the block
    transfer; it returns [-EIO] whenever the count the device reports
    differs from [blk_count], and it returns 0 only when the two are
    equal. *)
Theorem C5_short_transfer_is_an_error hw op dfu offset buf len st m :
  lookup_mmc (dev_num dfu) (mmc_devices st) = Some m ->
  0 < lba_blk_size (data_mmc dfu) < 2 ^ 32 ->
  exceeds_area (data_mmc dfu) (blk_start_at dfu offset) (blk_count_at dfu len) = false ->
  switch_in_answer hw dfu m (trace st) = 0 ->
  let blk_start := blk_start_at dfu offset in
  let blk_count := blk_count_at dfu len in
  let h := trace st ++ switch_in_events dfu m in
  let reported := transfer_answer hw op h (dev_num dfu) blk_start blk_count buf in
  exists r st',
    mmc_block_op hw op dfu offset buf len st
      = Some ((r, ALIGN len (lba_blk_size (data_mmc dfu))), st') /\
    trace st' = (h ++ transfer_events op (dev_num dfu) blk_start blk_count buf)
                ++ switch_back_events dfu m /\
    (reported <> blk_count -> r = - EIO) /\
    (r = 0 -> reported = blk_count).
Proof.
  intros Hm HB Hex Hin blk_start blk_count h reported.
  rewrite (mmc_block_op_eq hw _ _ _ _ _ _ _ Hm HB), Hex.
  destruct (mmc_block_transfer_spec hw op dfu buf
              (ALIGN len (lba_blk_size (data_mmc dfu))) blk_start blk_count st m Hm)
    as (st' & Hrun & Htr & _).
  cbv zeta in Hrun, Htr. rewrite Hin in Hrun, Htr. cbn [Z.eqb] in Hrun, Htr.
  fold blk_start blk_count. rewrite Hrun.
  fold h in Htr |- *. fold reported.
  eexists; exists st'. split; [reflexivity|]. split; [exact Htr|].
  destruct (Z.eqb_spec reported blk_count) as [E|E]; split; intros H;
    try reflexivity; try assumption; try contradiction.
  unfold EIO in H. lia.
Qed.

Lemma C5_short_transfer_is_an_error_witness :
  exists st',
    mmc_block_op hw_short DFU_OP_WRITE (raw_entity 100 50 2) 0 0 512 st_one
      = Some ((- EIO, 512), st') /\
    trace st' = [mmc_switch_part_call 0 2; block_write_call 0 100 1 0;
                 mmc_switch_part_call 0 0].
Proof.
  destruct (C5_short_transfer_is_an_error hw_short DFU_OP_WRITE (raw_entity 100 50 2)
              0 0 512 st_one mmc0)
    as (r & st' & Hrun & Htr & Hshort & _).
  - reflexivity.
  - simpl. lia.
  - reflexivity.
  - reflexivity.
  - assert (Hr : r = - EIO) by (apply Hshort; vm_compute; discriminate).
    subst r. exists st'. split; [exact Hrun | exact Htr].
Defined.
(** C3, as amended.  An access that has to switch to its hardware
    partition, whose number is one the [part_num] field holds as it is
    (0 to 127), and whose switch succeeds, makes three calls: the switch,
    the transfer, and the switch back to the partition that was active
    before, whether the transfer was complete or short.  When the switch
    back succeeds, the partition recorded as active afterwards is the one
    from before the access; when it fails, the configured partition stays
    recorded.  After a complete transfer the access returns the result of
    the switch back; after a short transfer it returns [-EIO] whatever
    the switch back did. *)
Theorem C3_partition_switched_back hw op dfu offset buf len st m :
  lookup_mmc (dev_num dfu) (mmc_devices st) = Some m ->
  0 < lba_blk_size (data_mmc dfu) < 2 ^ 32 ->
  exceeds_area (data_mmc dfu) (blk_start_at dfu offset) (blk_count_at dfu len) = false ->
  needs_switch dfu m = true ->
  hw_partition (data_mmc dfu) <= 127 ->
  mmc_switch_part hw (trace st) (dev_num dfu) (hw_partition (data_mmc dfu)) = 0 ->
  let d := dev_num dfu in
  let blk_start := blk_start_at dfu offset in
  let blk_count := blk_count_at dfu len in
  let h1 := trace st ++ [mmc_switch_part_call d (hw_partition (data_mmc dfu))] in
  let reported := transfer_answer hw op h1 d blk_start blk_count buf in
  let h2 := h1 ++ transfer_events op d blk_start blk_count buf in
  let restore := mmc_switch_part hw h2 d (part_num m) in
  exists r st',
    mmc_block_op hw op dfu offset buf len st
      = Some ((r, ALIGN len (lba_blk_size (data_mmc dfu))), st') /\
    trace st' = h2 ++ [mmc_switch_part_call d (part_num m)] /\
    (restore = 0 -> active_part d st' = active_part d st) /\
    (restore <> 0 -> active_part d st' = Some (hw_partition (data_mmc dfu))) /\
    (reported = blk_count -> r = restore) /\
    (reported <> blk_count -> r = - EIO).
Proof.
  intros Hm HB Hex Hsw Hfield Hin d blk_start blk_count h1 reported h2 restore.
  assert (Hchar : to_char (hw_partition (data_mmc dfu)) = hw_partition (data_mmc dfu)).
  { apply to_char_small. unfold needs_switch in Hsw.
    apply andb_prop in Hsw. destruct Hsw as [Hge _]. lia. }
  assert (Hback : needs_switch_back dfu m = true).
  { unfold needs_switch_back. rewrite Hsw, Hchar. unfold needs_switch in Hsw.
    apply andb_prop in Hsw. destruct Hsw as [_ Hne].
    rewrite Z.eqb_sym. exact Hne. }
  rewrite (mmc_block_op_eq hw _ _ _ _ _ _ _ Hm HB), Hex.
  destruct (mmc_block_transfer_spec hw op dfu buf
              (ALIGN len (lba_blk_size (data_mmc dfu))) blk_start blk_count st m Hm)
    as (st' & Hrun & Htr & Hact).
  cbv zeta in Hrun, Htr, Hact.
  unfold switch_in_answer, switch_in_events, switch_back_answer,
    switch_back_events in Hrun, Htr, Hact.
  rewrite Hback, Hchar in Hact. rewrite Hback in Hrun, Htr.
  rewrite Hsw, Hin in Hrun, Htr, Hact. cbn [Z.eqb andb] in Hrun, Htr, Hact.
  fold d blk_start blk_count in Hrun, Htr, Hact |- *.
  fold h1 in Hrun, Htr, Hact. fold reported in Hrun. fold h2 in Hrun, Htr, Hact.
  fold restore in Hrun, Hact.
  rewrite Hrun. eexists; exists st'. split; [reflexivity|].
  split; [exact Htr|].
  assert (Hbefore : active_part d st = Some (part_num m))
    by (unfold active_part, d; rewrite Hm; reflexivity).
  repeat split.
  - intros E. rewrite Hact, Hbefore, E. reflexivity.
  - intros E. rewrite Hact. apply Z.eqb_neq in E. rewrite E. reflexivity.
  - intros E. apply Z.eqb_eq in E. rewrite E. reflexivity.
  - intros E. apply Z.eqb_neq in E. rewrite E. reflexivity.
Qed.

Lemma C3_partition_switched_back_witness :
  exists st',
    mmc_block_op hw_short_stuck DFU_OP_WRITE (raw_entity 100 50 2) 0 0 512 st_one
      = Some ((- EIO, 512), st') /\
    trace st' = [mmc_switch_part_call 0 2; block_write_call 0 100 1 0;
                 mmc_switch_part_call 0 0] /\
    active_part 0 st' = Some 2.
Proof.
  destruct (C3_partition_switched_back hw_short_stuck DFU_OP_WRITE
              (raw_entity 100 50 2) 0 0 512 st_one mmc0)
    as (r & st' & Hrun & Htr & _ & Hstuck & _ & Hshort).
  - reflexivity.
  - simpl. lia.
  - reflexivity.
  - reflexivity.
  - simpl. lia.
  - reflexivity.
  - assert (Hr : r = - EIO) by (apply Hshort; vm_compute; discriminate).
    subst r. exists st'. split; [exact Hrun|]. split; [exact Htr|].
    apply Hstuck. vm_compute. discriminate.
Defined.

(** C3 (counterexample).  A write under a switch to hardware partition 2,
    with partition 0 active before.  The device writes no block.  On
    [hw_short_stuck] the switch back to partition 0 fails as well, and
    partition 2 stays recorded as active; on [hw_short] the switch back
    succeeds.  Both accesses return [-EIO]: the failed switch back is not
    reported, and the partition after the first access is not the one
    from before it. *)
Lemma C3_counterexample :
  exists st_stuck st_back,
    mmc_block_op hw_short_stuck DFU_OP_WRITE (raw_entity 100 50 2) 0 0 512 st_one
      = Some ((- EIO, 512), st_stuck) /\
    mmc_block_op hw_short DFU_OP_WRITE (raw_entity 100 50 2) 0 0 512 st_one
      = Some ((- EIO, 512), st_back) /\
    trace st_stuck = [mmc_switch_part_call 0 2; block_write_call 0 100 1 0;
                      mmc_switch_part_call 0 0] /\
    mmc_switch_part hw_short_stuck
      [mmc_switch_part_call 0 2; block_write_call 0 100 1 0] 0 0 <> 0 /\
    active_part 0 st_one = Some 0 /\
    active_part 0 st_stuck = Some 2 /\
    active_part 0 st_back = Some 0.
Proof.
  eexists. eexists.
  split; [vm_compute; reflexivity|].
  split; [vm_compute; reflexivity|].
  repeat split; vm_compute; congruence.
Qed.

(** C9.  The value left in [*len] is the aligned length in every case,
    also when the range check refuses the access, which then returns
    [-EINVAL] without any call to the platform.  The aligned length is
    the length rounded up to a multiple of the block size. *)
Theorem C9_length_is_aligned_before_the_check hw op dfu offset buf len st m :
  lookup_mmc (dev_num dfu) (mmc_devices st) = Some m ->
  0 < lba_blk_size (data_mmc dfu) < 2 ^ 32 ->
  let B := lba_blk_size (data_mmc dfu) in
  exists r st',
    mmc_block_op hw op dfu offset buf len st = Some ((r, ALIGN len B), st') /\
    (exceeds_area (data_mmc dfu) (blk_start_at dfu offset) (blk_count_at dfu len) = true ->
     r = - EINVAL /\ trace st' = trace st /\ mmc_devices st' = mmc_devices st) /\
    (0 <= len -> ceil_div len B * B <= LONG_MAX -> ALIGN len B = ceil_div len B * B).
Proof.
  intros Hm HB B.
  rewrite (mmc_block_op_eq hw _ _ _ _ _ _ _ Hm HB). fold B.
  destruct (exceeds_area _ _ _) eqn:Hex.
  - eexists; eexists. split; [reflexivity|]. split.
    + intros _. repeat split.
    + intros. apply ALIGN_ceil; subst B; (assumption || lia).
  - destruct (mmc_block_transfer_spec hw op dfu buf (ALIGN len B)
                (blk_start_at dfu offset) (blk_count_at dfu len) st m Hm)
      as (st' & Hrun & _).
    cbv zeta in Hrun. rewrite Hrun.
    eexists; eexists. split; [reflexivity|]. split.
    + discriminate.
    + intros. apply ALIGN_ceil; subst B; (assumption || lia).
Qed.

Lemma C9_length_is_aligned_before_the_check_witness :
  exists st',
    mmc_block_op hw_ok DFU_OP_WRITE (raw_entity 100 50 (- EINVAL)) 25600 0 700 st_one
      = Some ((- EINVAL, 1024), st') /\
    trace st' = [].
Proof.
  destruct (C9_length_is_aligned_before_the_check hw_ok DFU_OP_WRITE
              (raw_entity 100 50 (- EINVAL)) 25600 0 700 st_one mmc0)
    as (r & st' & Hrun & Hrefused & _).
  - reflexivity.
  - simpl. lia.
  - destruct Hrefused as (Hr & Htr & _); [reflexivity|].
    subst r. exists st'. split; [exact Hrun | exact Htr].
Defined.

Lemma switch_calls_transfer_events op d bs bc buf :
  switch_calls (transfer_events op d bs bc buf) = [].
Proof. destruct op; reflexivity. Qed.

(** C10.  A request for the partition that is recorded as active returns
    0 and leaves the state as it was: nothing is called.  An access whose
    configured partition is the active one makes no partition switch,
    neither before the transfer nor after it. *)
Theorem C10_no_switch_to_the_active_partition hw op dfu offset buf len st m :
  lookup_mmc (dev_num dfu) (mmc_devices st) = Some m ->
  0 < lba_blk_size (data_mmc dfu) < 2 ^ 32 ->
  mmc_access_part hw dfu (Some (dev_num dfu)) (part_num m) st = Some (0, st) /\
  (hw_partition (data_mmc dfu) = part_num m ->
   exists r st',
     mmc_block_op hw op dfu offset buf len st
       = Some ((r, ALIGN len (lba_blk_size (data_mmc dfu))), st') /\
     switch_calls (trace st') = switch_calls (trace st) /\
     active_part (dev_num dfu) st' = active_part (dev_num dfu) st).
Proof.
  intros Hm HB. split.
  - rewrite (mmc_access_part_eq hw _ _ _ _ Hm), Z.eqb_refl. reflexivity.
  - intros Hsame.
    assert (Hno : needs_switch dfu m = false).
    { unfold needs_switch. rewrite Hsame, Z.eqb_refl. apply andb_false_r. }
    assert (Hbefore : active_part (dev_num dfu) st = Some (part_num m))
      by (unfold active_part; rewrite Hm; reflexivity).
    rewrite (mmc_block_op_eq hw _ _ _ _ _ _ _ Hm HB).
    destruct (exceeds_area _ _ _) eqn:Hex.
    + eexists; eexists. split; [reflexivity|]. split; reflexivity.
    + destruct (mmc_block_transfer_spec hw op dfu buf
                  (ALIGN len (lba_blk_size (data_mmc dfu)))
                  (blk_start_at dfu offset) (blk_count_at dfu len) st m Hm)
        as (st' & Hrun & Htr & Hact).
      cbv zeta in Hrun, Htr, Hact.
      unfold switch_in_answer, switch_in_events, switch_back_answer,
        switch_back_events, needs_switch_back in Hrun, Htr, Hact.
      rewrite Hno in Hrun, Htr, Hact. cbn [Z.eqb andb] in Hrun, Htr, Hact.
      rewrite Hrun. eexists; eexists. split; [reflexivity|]. split.
      * rewrite Htr, !switch_calls_app, switch_calls_transfer_events, !app_nil_r.
        reflexivity.
      * rewrite Hact, Hbefore. reflexivity.
Qed.

Lemma C10_no_switch_to_the_active_partition_witness :
  mmc_access_part hw_ok (raw_entity 100 50 0) (Some 0) 0 st_one = Some (0, st_one) /\
  exists r st',
    mmc_block_op hw_ok DFU_OP_READ (raw_entity 100 50 0) 0 0 512 st_one
      = Some ((r, 512), st') /\
    switch_calls (trace st') = [] /\
    active_part 0 st' = Some 0.
Proof.
  destruct (C10_no_switch_to_the_active_partition hw_ok DFU_OP_READ
              (raw_entity 100 50 0) 0 0 512 st_one mmc0)
    as (Hsame & Hop).
  - reflexivity.
  - simpl. lia.
  - split; [exact Hsame|]. apply Hop. reflexivity.
Defined.

(** ** Staging buffer *)

(** C4.  [bytes] is appended to a staging buffer of capacity [CAP] that
    holds [cur] bytes.  If [cur + len(bytes) > CAP] the append returns
    [-EINVAL], the length becomes 0 and the array is left as it was;
    otherwise the bytes are copied behind the [cur] staged ones and the
    length becomes [cur + len(bytes)].  In both cases the length is at
    most [CAP] afterwards, and nothing is called.  The sum is computed in
    [long]: it is assumed to fit. *)
Theorem C4_staging_append CAP dfu bytes st :
  0 <= dfu_file_buf_len st <= CAP ->
  Z.of_nat (List.length (dfu_file_buf st)) = CAP ->
  dfu_file_buf_len st + Z.of_nat (List.length bytes) <= LONG_MAX ->
  let cur := dfu_file_buf_len st in
  let n := Z.of_nat (List.length bytes) in
  exists r st',
    mmc_file_buffer CAP dfu bytes n st = Some ((r, n), st') /\
    0 <= dfu_file_buf_len st' <= CAP /\
    trace st' = trace st /\
    if cur + n >? CAP
    then r = - EINVAL /\
         dfu_file_buf_len st' = 0 /\
         dfu_file_buf st' = dfu_file_buf st
    else r = 0 /\
         dfu_file_buf_len st' = cur + n /\
         dfu_file_buf st'
           = firstn (Z.to_nat cur) (dfu_file_buf st) ++ bytes
             ++ skipn (Z.to_nat (cur + n)) (dfu_file_buf st).
Proof.
  intros Hcur Hcap Hfit cur n.
  unfold mmc_file_buffer. fold cur.
  assert (Hn : 0 <= n) by (subst n; lia).
  rewrite to_long_small by (unfold LONG_MAX in *; subst cur n; lia).
  destruct (cur + n >? CAP) eqn:Hov.
  - eexists; eexists. split; [reflexivity|].
    cbn [dfu_file_buf_len dfu_file_buf trace set_file_buf].
    repeat split; lia.
  - assert (Hle : cur + n <= CAP) by (rewrite Z.gtb_ltb in Hov; apply Z.ltb_ge in Hov; exact Hov).
    unfold memcpy_at.
    assert (Hc : ((0 <=? cur) && (0 <=? n)
                  && (cur + n <=? Z.of_nat (List.length (dfu_file_buf st)))
                  && (n <=? Z.of_nat (List.length bytes)))%bool = true).
    { rewrite Hcap. subst cur n.
      repeat (apply andb_true_intro; split); apply Z.leb_le; lia. }
    rewrite Hc.
    replace (Z.to_nat n) with (List.length bytes) by (subst n; lia).
    rewrite firstn_all.
    eexists; eexists. split; [reflexivity|].
    cbn [dfu_file_buf_len dfu_file_buf trace set_file_buf].
    repeat split; lia.
Qed.

Lemma C4_staging_append_witness :
  (exists st',
     mmc_file_buffer 8 (fs_entity DFU_FS_FAT 0 1) (repeat x02 4) 4 st_staged
       = Some ((- EINVAL, 4), st') /\
     dfu_file_buf_len st' = 0 /\
     dfu_file_buf st' = dfu_file_buf st_staged) /\
  (exists st',
     mmc_file_buffer 8 (fs_entity DFU_FS_FAT 0 1) (repeat x02 3) 3 st_staged
       = Some ((0, 3), st') /\
     dfu_file_buf_len st' = 8 /\
     dfu_file_buf st' = repeat x01 5 ++ repeat x02 3).
Proof.
  split.
  - destruct (C4_staging_append 8 (fs_entity DFU_FS_FAT 0 1) (repeat x02 4) st_staged)
      as (r & st' & Hrun & _ & _ & Hcase).
    + simpl. lia.
    + reflexivity.
    + vm_compute. discriminate.
    + cbv zeta in Hrun, Hcase. simpl in Hcase. destruct Hcase as (Hr & Hlen & Hbuf).
      subst r. exists st'. auto.
  - destruct (C4_staging_append 8 (fs_entity DFU_FS_FAT 0 1) (repeat x02 3) st_staged)
      as (r & st' & Hrun & _ & _ & Hcase).
    + simpl. lia.
    + reflexivity.
    + vm_compute. discriminate.
    + cbv zeta in Hrun, Hcase. simpl in Hcase. destruct Hcase as (Hr & Hlen & Hbuf).
      subst r. exists st'. auto.
Defined.

(** ** Flush *)

Lemma mmc_file_op_write_runs hw fsname dfu buf len st :
  fs_name (layout dfu) = Some fsname ->
  let cmd := file_write_command fsname dfu buf len in
  mmc_file_op hw DFU_OP_WRITE dfu buf len st
    = Some ((run_command hw (trace st) cmd, len),
            if run_command hw (trace st) cmd =? 0
            then add_event st (run_command_call cmd)
            else add_message (add_event st (run_command_call cmd)) msg_read_error).
Proof.
  intros Hfs cmd. unfold mmc_file_op. unfold fs_name in Hfs. rewrite Hfs.
  cbv [bind ret call print]. fold (file_write_command fsname dfu buf len). fold cmd.
  destruct (run_command hw (trace st) cmd =? 0); reflexivity.
Qed.

(** C6.  A flush of a raw entity returns 0 and leaves the state as it
    was: nothing is called.  A flush of any other entity leaves the
    staging length at 0; for a FAT or ext4 entity it runs one filesystem
    write command, returns the result of that command, and leaves the
    length at 0 whatever the result. *)
Theorem C6_flush hw dfu_file_buf_addr dfu st :
  (layout dfu = DFU_RAW_ADDR ->
   dfu_flush_medium_mmc hw dfu_file_buf_addr dfu st = Some (0, st)) /\
  (layout dfu <> DFU_RAW_ADDR ->
   exists r st',
     dfu_flush_medium_mmc hw dfu_file_buf_addr dfu st = Some (r, st') /\
     dfu_file_buf_len st' = 0) /\
  (forall fsname, fs_name (layout dfu) = Some fsname ->
   let cmd := file_write_command fsname dfu dfu_file_buf_addr (dfu_file_buf_len st) in
   exists st',
     dfu_flush_medium_mmc hw dfu_file_buf_addr dfu st
       = Some (run_command hw (trace st) cmd, st') /\
     trace st' = trace st ++ [run_command_call cmd] /\
     dfu_file_buf_len st' = 0).
Proof.
  assert (Hfs : forall fsname, fs_name (layout dfu) = Some fsname ->
            let cmd := file_write_command fsname dfu dfu_file_buf_addr
                         (dfu_file_buf_len st) in
            exists st',
              dfu_flush_medium_mmc hw dfu_file_buf_addr dfu st
                = Some (run_command hw (trace st) cmd, st') /\
              trace st' = trace st ++ [run_command_call cmd] /\
              dfu_file_buf_len st' = 0).
  { intros fsname Hname cmd.
    assert (Hraw : layout dfu <> DFU_RAW_ADDR)
      by (intros E; rewrite E in Hname; discriminate).
    pose proof (mmc_file_op_write_runs hw fsname dfu dfu_file_buf_addr
                  (dfu_file_buf_len st) st Hname) as Hrun.
    cbv zeta in Hrun. fold cmd in Hrun.
    unfold dfu_flush_medium_mmc.
    destruct (layout dfu); try contradiction; rewrite Hrun;
      eexists; (split; [reflexivity|]);
      destruct (run_command hw (trace st) cmd =? 0); split; reflexivity. }
  split; [|split].
  - intros Hl. unfold dfu_flush_medium_mmc. rewrite Hl. reflexivity.
  - intros Hl. destruct (fs_name (layout dfu)) as [fsname|] eqn:Hname.
    + destruct (Hfs fsname eq_refl) as (st' & Hrun & _ & Hlen).
      eexists; exists st'. split; [exact Hrun | exact Hlen].
    + unfold dfu_flush_medium_mmc, mmc_file_op.
      destruct (layout dfu); try contradiction; try discriminate.
      cbv [bind ret print]. eexists; eexists. split; reflexivity.
  - exact Hfs.
Qed.

Lemma C6_flush_witness :
  dfu_flush_medium_mmc hw_ok 4096 (raw_entity 100 50 (- EINVAL)) st_staged
    = Some (0, st_staged) /\
  (exists r st',
     dfu_flush_medium_mmc hw_no_fs 4096 (fs_entity DFU_FS_FAT 0 1) st_staged
       = Some (r, st') /\
     dfu_file_buf_len st' = 0) /\
  (exists st',
     dfu_flush_medium_mmc hw_no_fs 4096 (fs_entity DFU_FS_EXT4 0 1) st_staged
       = Some (1, st') /\
     trace st' = [run_command_call "ext4write mmc 0:1 0x1000 image 5"] /\
     dfu_file_buf_len st' = 0).
Proof.
  split; [|split].
  - apply (C6_flush hw_ok 4096 (raw_entity 100 50 (- EINVAL)) st_staged).
    reflexivity.
  - apply (C6_flush hw_no_fs 4096 (fs_entity DFU_FS_FAT 0 1) st_staged).
    discriminate.
  - apply (proj2 (proj2 (C6_flush hw_no_fs 4096 (fs_entity DFU_FS_EXT4 0 1) st_staged))
             "ext4"%string).
    reflexivity.
Defined.

(** ** Descriptor parser *)

(** C7.  On a device that is found and initialises, ["raw 100 50"]
    yields a raw entity with [lba_start = 100], [lba_size = 50], the
    read block size of the device and no hardware partition
    ([hw_partition] is [-EINVAL], which is negative);
    ["raw 100 50 mmcpart 2"] yields the same with [hw_partition = 2];
    ["fat 0 1"] yields a FAT entity with device 0 and partition 1. *)
Theorem C7_descriptors hw dfu st m m' :
  lookup_mmc (dev_num dfu) (mmc_devices st) = Some m ->
  mmc_init hw (trace st) (dev_num dfu) m = (0, m') ->
  (exists dfu' st',
     dfu_fill_entity_mmc hw dfu "raw 100 50" st = Some ((0, dfu'), st') /\
     layout dfu' = DFU_RAW_ADDR /\
     lba_start (data_mmc dfu') = 100 /\
     lba_size (data_mmc dfu') = 50 /\
     lba_blk_size (data_mmc dfu') = to_u32 (read_bl_len m') /\
     hw_partition (data_mmc dfu') = - EINVAL /\
     hw_partition (data_mmc dfu') < 0) /\
  (exists dfu' st',
     dfu_fill_entity_mmc hw dfu "raw 100 50 mmcpart 2" st = Some ((0, dfu'), st') /\
     layout dfu' = DFU_RAW_ADDR /\
     lba_start (data_mmc dfu') = 100 /\
     lba_size (data_mmc dfu') = 50 /\
     lba_blk_size (data_mmc dfu') = to_u32 (read_bl_len m') /\
     hw_partition (data_mmc dfu') = 2) /\
  (exists dfu' st',
     dfu_fill_entity_mmc hw dfu "fat 0 1" st = Some ((0, dfu'), st') /\
     layout dfu' = DFU_FS_FAT /\
     dev (data_mmc dfu') = 0 /\
     part (data_mmc dfu') = 1).
Proof.
  intros Hm Hinit. split; [|split].
  - fill_entity_start Hm Hinit.
    try (erewrite lookup_store_same by exact Hm).
    eexists; eexists. split; [reflexivity|].
    repeat split; reflexivity.
  - fill_entity_start Hm Hinit.
    try (erewrite lookup_store_same by exact Hm).
    eexists; eexists. split; [reflexivity|].
    repeat split; reflexivity.
  - fill_entity_start Hm Hinit.
    try (erewrite lookup_store_same by exact Hm).
    eexists; eexists. split; [reflexivity|].
    repeat split; reflexivity.
Qed.

Lemma C7_descriptors_witness :
  (exists dfu' st',
     dfu_fill_entity_mmc hw_ok blank_entity "raw 100 50" st_one = Some ((0, dfu'), st') /\
     layout dfu' = DFU_RAW_ADDR /\
     lba_start (data_mmc dfu') = 100 /\
     lba_size (data_mmc dfu') = 50 /\
     lba_blk_size (data_mmc dfu') = to_u32 (read_bl_len mmc0) /\
     hw_partition (data_mmc dfu') = - EINVAL /\
     hw_partition (data_mmc dfu') < 0) /\
  (exists dfu' st',
     dfu_fill_entity_mmc hw_ok blank_entity "raw 100 50 mmcpart 2" st_one
       = Some ((0, dfu'), st') /\
     layout dfu' = DFU_RAW_ADDR /\
     lba_start (data_mmc dfu') = 100 /\
     lba_size (data_mmc dfu') = 50 /\
     lba_blk_size (data_mmc dfu') = to_u32 (read_bl_len mmc0) /\
     hw_partition (data_mmc dfu') = 2) /\
  (exists dfu' st',
     dfu_fill_entity_mmc hw_ok blank_entity "fat 0 1" st_one = Some ((0, dfu'), st') /\
     layout dfu' = DFU_FS_FAT /\
     dev (data_mmc dfu') = 0 /\
     part (data_mmc dfu') = 1).
Proof.
  apply (C7_descriptors hw_ok blank_entity st_one mmc0 mmc0).
  - reflexivity.
  - reflexivity.
Defined.

Lemma split_at_space_count s :
  match snd (split_at_space s) with
  | Some r => count_spaces s = S (count_spaces r)
  | None => count_spaces s = O
  end.
Proof.
  induction s as [|c r IH]; simpl; [reflexivity|].
  destruct (Ascii.eqb c " "); simpl; [reflexivity|].
  destruct (split_at_space r) as [tok rest]. simpl in *. exact IH.
Qed.

(** The loop of lines 284-290 fails exactly on the descriptors with
    fewer than two spaces; otherwise its first token is the first
    field. *)
Lemma fill_argv_3 s :
  if (count_spaces s <? 2)%nat
  then fst (fill_argv 3 (Some s)) = None
  else exists argv1 argv2 rest,
         fill_argv 3 (Some s) = (Some [first_field s; argv1; argv2], rest).
Proof.
  unfold first_field. cbn [fill_argv]. unfold strsep.
  pose proof (split_at_space_count s) as H0.
  destruct (split_at_space s) as [t0 [r1|]]; cbn [fst snd] in *.
  - pose proof (split_at_space_count r1) as H1.
    destruct (split_at_space r1) as [t1 [r2|]]; cbn [fst snd] in *.
    + destruct (split_at_space r2) as [t2 s3].
      rewrite H0, H1. cbn [Nat.ltb Nat.leb]. do 3 eexists. reflexivity.
    + rewrite H0, H1. reflexivity.
  - rewrite H0. reflexivity.
Qed.

Lemma supported_type_false t :
  supported_type t = false ->
  streq t "raw" = false /\ streq t "part" = false /\
  streq t "fat" = false /\ streq t "ext4" = false.
Proof.
  unfold supported_type. intros H.
  repeat (apply orb_false_elim in H; destruct H as [H ?]). auto.
Qed.

(** C8, as amended.  A descriptor with fewer than two spaces, that is
    with fewer than three fields for [strsep], is refused with [-ENODEV]
    and the message of line 287, before any call to the platform.  A
    descriptor whose first field is none of [raw], [part], [fat] and
    [ext4] is refused with [-ENODEV] as well; when it has three fields
    and the device is found and initialises, the message is the one of
    line 348. *)
Theorem C8_malformed_descriptor hw dfu s st :
  (count_spaces s < 2)%nat \/ supported_type (first_field s) = false ->
  exists dfu' st',
    dfu_fill_entity_mmc hw dfu s st = Some ((- ENODEV, dfu'), st') /\
    ((count_spaces s < 2)%nat ->
     dfu' = dfu /\ st' = add_message st msg_invalid_number_of_arguments) /\
    (forall m m',
       (2 <= count_spaces s)%nat ->
       lookup_mmc (dev_num dfu) (mmc_devices st) = Some m ->
       mmc_init hw (trace st) (dev_num dfu) m = (0, m') ->
       console st' = console st ++ [msg_memory_layout_not_supported (first_field s)]).
Proof.
  intros H. pose proof (fill_argv_3 s) as Hargv.
  destruct (count_spaces s <? 2)%nat eqn:Hc.
  - (* fewer than three fields *)
    apply Nat.ltb_lt in Hc.
    unfold dfu_fill_entity_mmc.
    destruct (fill_argv 3 (Some s)) as [[toks|] rest]; [discriminate|].
    cbv [bind ret print]. eexists; eexists. split; [reflexivity|].
    split; [auto|]. intros; lia.
  - (* three fields, and a first field that is not supported *)
    apply Nat.ltb_ge in Hc.
    destruct H as [H|H]; [lia|].
    destruct Hargv as (argv1 & argv2 & rest & Hargv).
    destruct (supported_type_false _ H) as (Hraw & Hpart & Hfat & Hext4).
    unfold dfu_fill_entity_mmc. rewrite Hargv.
    cbv [bind ret call print find_mmc_device load_mmc store_mmc_desc].
    destruct (lookup_mmc (dev_num dfu) (mmc_devices st)) as [m|] eqn:Hm.
    + cbn [mmc_devices add_event trace]. rewrite Hm.
      destruct (mmc_init hw (trace st) (dev_num dfu) m) as [r m'] eqn:Hinit.
      cbn [fst snd].
      destruct (r =? 0) eqn:Hr; cbn [negb].
      * rewrite Hraw, Hpart, Hfat, Hext4.
        eexists; eexists. split; [reflexivity|].
        split; [intros; lia|].
        intros m1 m1' _ Hm1 Hinit1. reflexivity.
      * eexists; eexists. split; [reflexivity|].
        split; [intros; lia|].
        intros m1 m1' _ Hm1 Hinit1.
        assert (m1 = m) by congruence. subst m1.
        rewrite Hinit in Hinit1. apply Z.eqb_neq in Hr. congruence.
    + eexists; eexists. split; [reflexivity|].
      split; [intros; lia|].
      intros m1 m1' _ Hm1. discriminate.
Qed.

Lemma C8_malformed_descriptor_witness :
  (exists dfu' st',
     dfu_fill_entity_mmc hw_ok blank_entity "raw 100" st_one
       = Some ((- ENODEV, dfu'), st') /\
     dfu' = blank_entity /\
     st' = add_message st_one msg_invalid_number_of_arguments) /\
  (exists dfu' st',
     dfu_fill_entity_mmc hw_ok blank_entity "xyz 1 2" st_one
       = Some ((- ENODEV, dfu'), st') /\
     console st' = console st_one ++ [msg_memory_layout_not_supported "xyz"]).
Proof.
  split.
  - destruct (C8_malformed_descriptor hw_ok blank_entity "raw 100" st_one)
      as (dfu' & st' & Hrun & Hfew & _).
    + left. simpl. lia.
    + exists dfu', st'. split; [exact Hrun|]. apply Hfew. simpl. lia.
  - destruct (C8_malformed_descriptor hw_ok blank_entity "xyz 1 2" st_one)
      as (dfu' & st' & Hrun & _ & Hmsg).
    + right. reflexivity.
    + exists dfu', st'. split; [exact Hrun|].
      apply (Hmsg mmc0 mmc0).
      * simpl. lia.
      * reflexivity.
      * reflexivity.
Defined.

(** C8 (counterexample).  ["raw 1 "] holds two whitespace-separated
    tokens.  [strsep] finds two spaces in it and so three fields, the
    last one empty; the descriptor is accepted as a raw entity with
    [lba_start = 1] and [lba_size = 0]. *)
Lemma C8_counterexample :
  whitespace_tokens "raw 1 " = ["raw"; "1"]%string /\
  exists dfu' st',
    dfu_fill_entity_mmc hw_ok blank_entity "raw 1 " st_one = Some ((0, dfu'), st') /\
    layout dfu' = DFU_RAW_ADDR /\
    lba_start (data_mmc dfu') = 1 /\
    lba_size (data_mmc dfu') = 0.
Proof.
  split; [reflexivity|].
  eexists; eexists. split; [vm_compute; reflexivity|].
  repeat split; reflexivity.
Qed.

(** * Further properties *)

(** ** Raw block access *)

(** The block transfers of a raw access: none when the range check
    refuses it, otherwise at most the one of the computed range. *)
Lemma mmc_block_op_transfers hw op dfu offset buf len st m :
  lookup_mmc (dev_num dfu) (mmc_devices st) = Some m ->
  0 < lba_blk_size (data_mmc dfu) < 2 ^ 32 ->
  exists r st',
    mmc_block_op hw op dfu offset buf len st
      = Some ((r, ALIGN len (lba_blk_size (data_mmc dfu))), st') /\
    (transfers (trace st') = transfers (trace st) \/
     exceeds_area (data_mmc dfu) (blk_start_at dfu offset) (blk_count_at dfu len) = false /\
     transfers (trace st')
       = transfers (trace st) ++ [(blk_start_at dfu offset, blk_count_at dfu len)]).
Proof.
  intros Hm HB. rewrite (mmc_block_op_eq hw _ _ _ _ _ _ _ Hm HB).
  destruct (exceeds_area _ _ _) eqn:Hex.
  - eexists; eexists. split; [reflexivity|]. left. reflexivity.
  - destruct (mmc_block_transfer_spec hw op dfu buf
                (ALIGN len (lba_blk_size (data_mmc dfu)))
                (blk_start_at dfu offset) (blk_count_at dfu len) st m Hm)
      as (st' & Hrun & Htr & _).
    cbv zeta in Hrun, Htr. rewrite Hrun. eexists; exists st'.
    split; [reflexivity|].
    destruct (switch_in_answer hw dfu m (trace st) =? 0).
    + rewrite Htr, !transfers_app, transfers_switch_in, transfers_switch_back,
        transfers_transfer_events, !app_nil_r.
      destruct op; [right | right | left]; auto using app_nil_r.
    + rewrite Htr, transfers_app, transfers_switch_in, app_nil_r. left. reflexivity.
Qed.

(** X1.  As long as no sum leaves the range of [u32] (the area ends
    below [2^32], and so does the requested range), every block transfer
    a raw access makes lies inside the area of the entity. *)
Theorem raw_access_stays_in_area hw op dfu offset buf len st m :
  lookup_mmc (dev_num dfu) (mmc_devices st) = Some m ->
  0 < lba_blk_size (data_mmc dfu) < 2 ^ 32 ->
  0 <= lba_start (data_mmc dfu) ->
  0 <= lba_size (data_mmc dfu) ->
  lba_start (data_mmc dfu) + lba_size (data_mmc dfu) < 2 ^ 32 ->
  0 <= offset < 2 ^ 64 ->
  lba_start (data_mmc dfu) + offset / lba_blk_size (data_mmc dfu)
    + blk_count_at dfu len < 2 ^ 32 ->
  exists r st' new,
    mmc_block_op hw op dfu offset buf len st
      = Some ((r, ALIGN len (lba_blk_size (data_mmc dfu))), st') /\
    transfers (trace st') = transfers (trace st) ++ new /\
    Forall (within_area (data_mmc dfu)) new.
Proof.
  intros Hm HB Hs Hn Hend Ho Hreq.
  destruct (mmc_block_op_transfers hw op dfu offset buf len st m Hm HB)
    as (r & st' & Hrun & Htr).
  exists r, st'.
  destruct Htr as [Htr | [Hex Htr]].
  - exists []. rewrite app_nil_r. auto.
  - exists [(blk_start_at dfu offset, blk_count_at dfu len)].
    split; [exact Hrun|]. split; [exact Htr|].
    constructor; [|constructor].
    assert (Hq : 0 <= offset / lba_blk_size (data_mmc dfu))
      by (apply Z.div_pos; lia).
    assert (Hc : 0 <= blk_count_at dfu len).
    { unfold blk_count_at. apply Z.div_pos; [|lia].
      apply (to_u32_range (ALIGN len (lba_blk_size (data_mmc dfu)))). }
    assert (Hbs : blk_start_at dfu offset
                  = lba_start (data_mmc dfu) + offset / lba_blk_size (data_mmc dfu)).
    { rewrite blk_start_at_eq by exact Ho. apply Z.mod_small. lia. }
    unfold exceeds_area in Hex. rewrite Hbs in Hex.
    rewrite !to_u32_small in Hex by lia.
    rewrite Z.gtb_ltb in Hex. apply Z.ltb_ge in Hex.
    unfold within_area. cbn [fst snd]. rewrite Hbs. lia.
Qed.

Lemma raw_access_stays_in_area_witness :
  exists r st' new,
    mmc_block_op hw_ok DFU_OP_WRITE (raw_entity 100 50 (- EINVAL)) 1024 0 700 st_one
      = Some ((r, ALIGN 700 512), st') /\
    transfers (trace st') = transfers (trace st_one) ++ new /\
    Forall (within_area (data_mmc (raw_entity 100 50 (- EINVAL)))) new.
Proof.
  apply (raw_access_stays_in_area hw_ok DFU_OP_WRITE (raw_entity 100 50 (- EINVAL))
           1024 0 700 st_one mmc0).
  - reflexivity.
  - simpl. lia.
  - simpl. lia.
  - simpl. lia.
  - simpl. lia.
  - lia.
  - vm_compute. reflexivity.
Defined.

(** X2.  When the switch to the configured hardware partition fails,
    the access returns the result of the switch, makes no block
    transfer and no further switch, and the partition recorded as active
    stays the one from before. *)
Theorem raw_access_aborts_when_switch_fails hw op dfu offset buf len st m :
  lookup_mmc (dev_num dfu) (mmc_devices st) = Some m ->
  0 < lba_blk_size (data_mmc dfu) < 2 ^ 32 ->
  exceeds_area (data_mmc dfu) (blk_start_at dfu offset) (blk_count_at dfu len) = false ->
  needs_switch dfu m = true ->
  mmc_switch_part hw (trace st) (dev_num dfu) (hw_partition (data_mmc dfu)) <> 0 ->
  exists st',
    mmc_block_op hw op dfu offset buf len st
      = Some ((mmc_switch_part hw (trace st) (dev_num dfu) (hw_partition (data_mmc dfu)),
               ALIGN len (lba_blk_size (data_mmc dfu))), st') /\
    trace st' = trace st
                ++ [mmc_switch_part_call (dev_num dfu) (hw_partition (data_mmc dfu))] /\
    active_part (dev_num dfu) st' = active_part (dev_num dfu) st.
Proof.
  intros Hm HB Hex Hsw Hfail.
  rewrite (mmc_block_op_eq hw _ _ _ _ _ _ _ Hm HB), Hex.
  destruct (mmc_block_transfer_spec hw op dfu buf
              (ALIGN len (lba_blk_size (data_mmc dfu)))
              (blk_start_at dfu offset) (blk_count_at dfu len) st m Hm)
    as (st' & Hrun & Htr & Hact).
  cbv zeta in Hrun, Htr, Hact.
  unfold switch_in_answer, switch_in_events in Hrun, Htr, Hact.
  rewrite Hsw in Hrun, Htr, Hact.
  apply Z.eqb_neq in Hfail. rewrite Hfail in Hrun, Htr, Hact.
  cbn [andb] in Hact.
  exists st'. split; [exact Hrun|]. split; [exact Htr|].
  rewrite Hact. unfold active_part. rewrite Hm. reflexivity.
Qed.

Lemma raw_access_aborts_when_switch_fails_witness :
  exists st',
    mmc_block_op hw_no_switch DFU_OP_WRITE (raw_entity 100 50 2) 0 0 512 st_one
      = Some ((-1, 512), st') /\
    trace st' = [mmc_switch_part_call 0 2] /\
    active_part 0 st' = Some 0.
Proof.
  apply (raw_access_aborts_when_switch_fails hw_no_switch DFU_OP_WRITE
           (raw_entity 100 50 2) 0 0 512 st_one mmc0).
  - reflexivity.
  - simpl. lia.
  - reflexivity.
  - reflexivity.
  - vm_compute. discriminate.
Defined.

(** X3.  A raw access that returns 0 has left the partition recorded as
    active as it found it, and (for a read or a write) has made exactly
    one block transfer, of the computed range. *)
Theorem raw_access_success hw op dfu offset buf len st m st' :
  lookup_mmc (dev_num dfu) (mmc_devices st) = Some m ->
  0 < lba_blk_size (data_mmc dfu) < 2 ^ 32 ->
  mmc_block_op hw op dfu offset buf len st
    = Some ((0, ALIGN len (lba_blk_size (data_mmc dfu))), st') ->
  active_part (dev_num dfu) st' = active_part (dev_num dfu) st /\
  (op <> DFU_OP_SIZE ->
   transfers (trace st')
     = transfers (trace st) ++ [(blk_start_at dfu offset, blk_count_at dfu len)]).
Proof.
  intros Hm HB Hrun.
  rewrite (mmc_block_op_eq hw _ _ _ _ _ _ _ Hm HB) in Hrun.
  destruct (exceeds_area _ _ _) eqn:Hex; [discriminate|].
  destruct (mmc_block_transfer_spec hw op dfu buf
              (ALIGN len (lba_blk_size (data_mmc dfu)))
              (blk_start_at dfu offset) (blk_count_at dfu len) st m Hm)
    as (st1 & Hrun1 & Htr & Hact).
  cbv zeta in Hrun1, Htr, Hact. rewrite Hrun1 in Hrun.
  injection Hrun as Hr Hst. subst st1.
  destruct (switch_in_answer hw dfu m (trace st) =? 0) eqn:E1.
  - destruct (_ =? blk_count_at dfu len) eqn:En; [|discriminate].
    apply Z.eqb_eq in Hr. rewrite Hr in Hact. cbn [negb] in Hact.
    rewrite andb_false_r in Hact. split.
    + rewrite Hact. unfold active_part. rewrite Hm. reflexivity.
    + intros Hop. rewrite Htr, !transfers_app, transfers_switch_in,
        transfers_switch_back, transfers_transfer_events, !app_nil_r.
      destruct op; congruence.
  - apply Z.eqb_neq in E1. contradiction.
Qed.

Lemma raw_access_success_witness :
  exists st',
    mmc_block_op hw_ok DFU_OP_READ (raw_entity 100 50 2) 0 0 512 st_one
      = Some ((0, 512), st') /\
    active_part 0 st' = active_part 0 st_one /\
    transfers (trace st') = [(100, 1)].
Proof.
  eexists. split; [vm_compute; reflexivity|].
  destruct (raw_access_success hw_ok DFU_OP_READ (raw_entity 100 50 2) 0 0 512
              st_one mmc0 _ eq_refl ltac:(simpl; lia) eq_refl) as (Hact & Htr).
  split; [exact Hact|]. apply Htr. discriminate.
Defined.
(** X4.  [mmc_access_part] records a partition as active only when it
    returns 0: the requested one as the [part_num] field holds it, which
    is its low 8 bits, and so the requested number itself from 0 to 127.
    When the switch fails it returns the result of the switch and the
    recorded partition stays the one from before. *)
Theorem access_part_records_only_success hw dfu part st m :
  lookup_mmc (dev_num dfu) (mmc_devices st) = Some m ->
  exists r st',
    mmc_access_part hw dfu (Some (dev_num dfu)) part st = Some (r, st') /\
    (r = 0 ->
     exists p,
       active_part (dev_num dfu) st' = Some p /\
       p mod 256 = part mod 256 /\
       (0 <= part <= 127 -> p = part)) /\
    (r <> 0 ->
     r = mmc_switch_part hw (trace st) (dev_num dfu) part /\
     active_part (dev_num dfu) st' = Some (part_num m) /\
     part <> part_num m).
Proof.
  intros Hm. rewrite (mmc_access_part_eq hw _ _ _ _ Hm).
  destruct (Z.eqb_spec part (part_num m)) as [Esame|Esame].
  - eexists; eexists. split; [reflexivity|]. split.
    + intros _. exists part. unfold active_part. rewrite Hm, Esame. auto.
    + intros H. contradiction.
  - destruct (Z.eqb_spec (mmc_switch_part hw (trace st) (dev_num dfu) part) 0)
      as [E|E].
    + eexists; eexists. split; [reflexivity|]. split.
      * intros _. exists (to_char part). unfold active_part.
        cbn [mmc_devices set_mmc_devices].
        erewrite lookup_store_same by exact Hm. cbn [option_map].
        unfold part_num. cbn [part_num_field]. rewrite int_of_char_of_int.
        split; [reflexivity|]. split; [apply to_char_low_bits|].
        intros Hr. apply to_char_small. lia.
      * intros H. contradiction.
    + eexists; eexists. split; [reflexivity|]. split.
      * intros H. contradiction.
      * intros _. unfold active_part. cbn [mmc_devices add_event add_message].
        rewrite Hm. auto.
Qed.

Lemma access_part_records_only_success_witness :
  (exists r st',
     mmc_access_part hw_no_switch (raw_entity 100 50 2) (Some 0) 2 st_one
       = Some (r, st') /\
     r = -1 /\
     active_part 0 st' = Some 0) /\
  (exists st',
     mmc_access_part hw_ok (raw_entity 100 50 2) (Some 0) 2 st_one
       = Some (0, st') /\
     active_part 0 st' = Some 2) /\
  (exists st',
     mmc_access_part hw_ok (raw_entity 100 50 256) (Some 0) 256 st_one
       = Some (0, st') /\
     active_part 0 st' = Some 0).
Proof.
  split; [|split].
  - destruct (access_part_records_only_success hw_no_switch (raw_entity 100 50 2)
                2 st_one mmc0 eq_refl) as (r & st' & Hrun & _ & Hfail).
    pose proof Hrun as Hr. vm_compute in Hr. injection Hr as Hr _. subst r.
    exists (-1), st'. split; [exact Hrun|].
    destruct Hfail as (_ & Hact & _); [discriminate|]. auto.
  - destruct (access_part_records_only_success hw_ok (raw_entity 100 50 2)
                2 st_one mmc0 eq_refl) as (r & st' & Hrun & Hok & _).
    pose proof Hrun as Hr. vm_compute in Hr. injection Hr as Hr _. subst r.
    exists st'. split; [exact Hrun|].
    destruct (Hok eq_refl) as (p & Hact & _ & Hp).
    change (active_part 0 st' = Some p) in Hact.
    rewrite Hact, Hp; [reflexivity | lia].
  - destruct (access_part_records_only_success hw_ok (raw_entity 100 50 256)
                256 st_one mmc0 eq_refl) as (r & st' & Hrun & _ & _).
    exists st'. vm_compute in Hrun. injection Hrun as Hr Hst. subst r st'.
    split; reflexivity.
Defined.

(** ** Operations that leave the staging buffer alone *)

Lemma same_staging_refl st : same_staging st st.
Proof. split; reflexivity. Qed.

Lemma same_staging_trans st1 st2 st3 :
  same_staging st1 st2 -> same_staging st2 st3 -> same_staging st1 st3.
Proof. intros [H1 H2] [H3 H4]. split; congruence. Qed.

Lemma keeps_staging_ret A (a : A) : keeps_staging (ret a).
Proof.
  intros st a' st' H. injection H as _ <-. apply same_staging_refl.
Qed.

Lemma keeps_staging_fault A : keeps_staging (@fault A).
Proof. intros st a st' H. discriminate. Qed.

Lemma keeps_staging_bind A B (m : M A) (k : A -> M B) :
  keeps_staging m -> (forall a, keeps_staging (k a)) -> keeps_staging (bind m k).
Proof.
  intros Hm Hk st b st' H. unfold bind in H.
  destruct (m st) as [[a st1]|] eqn:E; [|discriminate].
  eapply same_staging_trans; [eapply Hm | eapply Hk]; eassumption.
Qed.

Lemma keeps_staging_call A e (answer : list event -> A) :
  keeps_staging (call e answer).
Proof. intros st a st' H. injection H as _ <-. split; reflexivity. Qed.

Lemma keeps_staging_print msg : keeps_staging (print msg).
Proof. intros st a st' H. injection H as _ <-. split; reflexivity. Qed.

Lemma keeps_staging_load_mmc p : keeps_staging (load_mmc p).
Proof.
  intros st a st' H. unfold load_mmc in H.
  destruct p; [|discriminate].
  destruct (lookup_mmc _ _); [|discriminate].
  injection H as _ <-. apply same_staging_refl.
Qed.

Lemma keeps_staging_find_mmc_device d : keeps_staging (find_mmc_device d).
Proof. intros st a st' H. injection H as _ <-. apply same_staging_refl. Qed.

Lemma keeps_staging_store_part_num p v : keeps_staging (store_part_num p v).
Proof.
  unfold store_part_num. apply keeps_staging_bind.
  - apply keeps_staging_load_mmc.
  - intros m st a st' H. destruct p; [|discriminate].
    injection H as _ <-. split; reflexivity.
Qed.

Lemma keeps_staging_udiv a b : keeps_staging (udiv a b).
Proof.
  unfold udiv. destruct (b =? 0);
    [apply keeps_staging_fault | apply keeps_staging_ret].
Qed.

Create HintDb staging.

#[local] Hint Resolve keeps_staging_ret keeps_staging_fault keeps_staging_call
  keeps_staging_print keeps_staging_load_mmc keeps_staging_find_mmc_device
  keeps_staging_store_part_num keeps_staging_udiv : staging.

Ltac staging :=
  repeat first
    [ progress auto with staging
    | simple apply keeps_staging_bind; [|intros ?]
    | match goal with
      | |- keeps_staging (if ?b then _ else _) => destruct b
      | |- keeps_staging (match ?x with _ => _ end) => destruct x
      end ].

Lemma keeps_staging_mmc_access_part hw dfu mmc part :
  keeps_staging (mmc_access_part hw dfu mmc part).
Proof. unfold mmc_access_part. staging. Qed.

Lemma keeps_staging_mmc_block_op hw op dfu offset buf len :
  keeps_staging (mmc_block_op hw op dfu offset buf len).
Proof.
  pose proof (keeps_staging_mmc_access_part hw dfu) as Hap.
  unfold mmc_block_op, lldiv. cbv zeta. staging; apply Hap.
Qed.

Lemma keeps_staging_mmc_file_op hw op dfu buf len :
  keeps_staging (mmc_file_op hw op dfu buf len).
Proof. unfold mmc_file_op. cbv zeta. staging. Qed.

(** X5.  Reading, asking for the size, and writing to a raw entity
    leave the staging buffer and its length as they were. *)
Theorem staging_untouched_by_reads_and_raw_writes hw CAP dfu offset buf len len0 :
  keeps_staging (dfu_read_medium_mmc hw dfu offset buf len) /\
  keeps_staging (dfu_get_medium_size_mmc hw dfu len0) /\
  (layout dfu = DFU_RAW_ADDR ->
   keeps_staging (dfu_write_medium_mmc hw CAP dfu offset buf len)).
Proof.
  pose proof (keeps_staging_mmc_block_op hw) as Hb.
  pose proof (keeps_staging_mmc_file_op hw) as Hf.
  split; [|split].
  - unfold dfu_read_medium_mmc. destruct (layout dfu); staging.
  - unfold dfu_get_medium_size_mmc. destruct (layout dfu); staging.
  - intros Hl. unfold dfu_write_medium_mmc. rewrite Hl. apply Hb.
Qed.

Lemma staging_untouched_by_reads_and_raw_writes_witness :
  exists st',
    dfu_read_medium_mmc hw_part (fs_entity DFU_FS_FAT 0 1) 0
      {| buf_addr := 4096; buf_bytes := [] |} 0 st_staged = Some ((0, 8000), st') /\
    same_staging st_staged st'.
Proof.
  eexists. split; [vm_compute; reflexivity|].
  apply (proj1 (staging_untouched_by_reads_and_raw_writes hw_part 8
                  (fs_entity DFU_FS_FAT 0 1) 0 {| buf_addr := 4096; buf_bytes := [] |}
                  0 0) st_staged (0, 8000)).
  reflexivity.
Defined.

(** ** Staging *)

(** The append of lines 101-113 on a buffer that is large enough for the
    sum, which fits a [long]. *)
Lemma mmc_file_buffer_eq CAP dfu bytes st :
  0 <= dfu_file_buf_len st ->
  Z.of_nat (List.length (dfu_file_buf st)) = CAP ->
  dfu_file_buf_len st + Z.of_nat (List.length bytes) <= LONG_MAX ->
  mmc_file_buffer CAP dfu bytes (Z.of_nat (List.length bytes)) st
    = if dfu_file_buf_len st + Z.of_nat (List.length bytes) >? CAP
      then Some ((- EINVAL, Z.of_nat (List.length bytes)),
                 set_file_buf st (dfu_file_buf st) 0)
      else Some ((0, Z.of_nat (List.length bytes)),
                 set_file_buf st
                   (firstn (Z.to_nat (dfu_file_buf_len st)) (dfu_file_buf st)
                    ++ bytes
                    ++ skipn (Z.to_nat (dfu_file_buf_len st
                                        + Z.of_nat (List.length bytes)))
                         (dfu_file_buf st))
                   (dfu_file_buf_len st + Z.of_nat (List.length bytes))).
Proof.
  intros Hcur Hcap Hfit. unfold mmc_file_buffer.
  rewrite to_long_small by (unfold LONG_MAX in *; lia).
  destruct (_ >? CAP) eqn:Hov; [reflexivity|].
  rewrite Z.gtb_ltb in Hov. apply Z.ltb_ge in Hov.
  unfold memcpy_at.
  assert (Hc : ((0 <=? dfu_file_buf_len st) && (0 <=? Z.of_nat (List.length bytes))
                && (dfu_file_buf_len st + Z.of_nat (List.length bytes)
                    <=? Z.of_nat (List.length (dfu_file_buf st)))
                && (Z.of_nat (List.length bytes) <=? Z.of_nat (List.length bytes)))%bool
               = true).
  { rewrite Hcap. repeat (apply andb_true_intro; split); apply Z.leb_le; lia. }
  rewrite Hc, Nat2Z.id, firstn_all. reflexivity.
Qed.

(** The flush of a FAT or ext4 entity. *)
Lemma dfu_flush_medium_mmc_fs hw addr dfu st fsname :
  fs_name (layout dfu) = Some fsname ->
  let cmd := file_write_command fsname dfu addr (dfu_file_buf_len st) in
  exists st',
    dfu_flush_medium_mmc hw addr dfu st = Some (run_command hw (trace st) cmd, st') /\
    trace st' = trace st ++ [run_command_call cmd] /\
    dfu_file_buf_len st' = 0 /\
    dfu_file_buf st' = dfu_file_buf st /\
    mmc_devices st' = mmc_devices st.
Proof.
  intros Hname cmd.
  pose proof (mmc_file_op_write_runs hw fsname dfu addr (dfu_file_buf_len st) st Hname)
    as Hrun.
  cbv zeta in Hrun. fold cmd in Hrun.
  unfold dfu_flush_medium_mmc.
  destruct (layout dfu); try discriminate; rewrite Hrun;
    eexists; (split; [reflexivity|]);
    destruct (run_command hw (trace st) cmd =? 0); repeat split; reflexivity.
Qed.

(** X6.  A write to a FAT or ext4 entity is staged only: it calls
    nothing on the platform and leaves the devices alone, and its result
    does not depend on the offset. *)
Theorem fs_write_is_staged_only hw CAP dfu offset offset' buf len st fsname st' :
  fs_name (layout dfu) = Some fsname ->
  forall res,
    dfu_write_medium_mmc hw CAP dfu offset buf len st = Some (res, st') ->
    trace st' = trace st /\
    mmc_devices st' = mmc_devices st /\
    dfu_write_medium_mmc hw CAP dfu offset' buf len st = Some (res, st').
Proof.
  intros Hname res Hrun.
  assert (Hw : forall o, dfu_write_medium_mmc hw CAP dfu o buf len st
                         = mmc_file_buffer CAP dfu (buf_bytes buf) len st).
  { intros o. unfold dfu_write_medium_mmc.
    destruct (layout dfu); try discriminate; reflexivity. }
  rewrite Hw in Hrun |- *. split; [|split]; [| |exact Hrun].
  - unfold mmc_file_buffer in Hrun.
    destruct (_ >? CAP); [|destruct (memcpy_at _ _ _ _)];
      try discriminate; injection Hrun as _ <-; reflexivity.
  - unfold mmc_file_buffer in Hrun.
    destruct (_ >? CAP); [|destruct (memcpy_at _ _ _ _)];
      try discriminate; injection Hrun as _ <-; reflexivity.
Qed.

Lemma fs_write_is_staged_only_witness :
  exists st',
    dfu_write_medium_mmc hw_ok 8 (fs_entity DFU_FS_FAT 0 1) 0
      {| buf_addr := 4096; buf_bytes := repeat x02 3 |} 3 st_staged
      = Some ((0, 3), st') /\
    trace st' = trace st_staged /\
    mmc_devices st' = mmc_devices st_staged /\
    dfu_write_medium_mmc hw_ok 8 (fs_entity DFU_FS_FAT 0 1) 4096
      {| buf_addr := 4096; buf_bytes := repeat x02 3 |} 3 st_staged
      = Some ((0, 3), st').
Proof.
  eexists. split; [vm_compute; reflexivity|].
  apply (fs_write_is_staged_only hw_ok 8 (fs_entity DFU_FS_FAT 0 1) 0 4096
           {| buf_addr := 4096; buf_bytes := repeat x02 3 |} 3 st_staged "fat"%string).
  - reflexivity.
  - reflexivity.
Defined.

Lemma firstn_app_exact A (l1 l2 : list A) n :
  n = List.length l1 -> firstn n (l1 ++ l2) = l1.
Proof.
  intros ->. rewrite firstn_app, firstn_all, Nat.sub_diag, firstn_O.
  apply app_nil_r.
Qed.

Lemma skipn_app_exact A (l1 l2 : list A) n k :
  n = (List.length l1 + k)%nat -> skipn n (l1 ++ l2) = skipn k l2.
Proof.
  intros ->. rewrite skipn_app.
  rewrite skipn_all2 by lia.
  replace (List.length l1 + k - List.length l1)%nat with k by lia.
  reflexivity.
Qed.

(** X7.  Two appends that fit the buffer one after the other leave the
    state that one append of the two chunks together leaves. *)
Theorem staging_appends_compose CAP dfu b1 b2 st :
  0 <= dfu_file_buf_len st ->
  Z.of_nat (List.length (dfu_file_buf st)) = CAP ->
  CAP <= LONG_MAX ->
  dfu_file_buf_len st + Z.of_nat (List.length b1) + Z.of_nat (List.length b2) <= CAP ->
  let n1 := Z.of_nat (List.length b1) in
  let n2 := Z.of_nat (List.length b2) in
  exists st1 st2,
    mmc_file_buffer CAP dfu b1 n1 st = Some ((0, n1), st1) /\
    mmc_file_buffer CAP dfu b2 n2 st1 = Some ((0, n2), st2) /\
    mmc_file_buffer CAP dfu (b1 ++ b2) (n1 + n2) st = Some ((0, n1 + n2), st2).
Proof.
  intros Hcur Hcap Hmax Hfit n1 n2.
  set (cur := dfu_file_buf_len st) in *.
  set (buf := dfu_file_buf st) in *.
  assert (Hgt : forall x, x <= CAP -> (x >? CAP) = false).
  { intros x Hx. rewrite Z.gtb_ltb. apply Z.ltb_ge. exact Hx. }
  (* the first append *)
  pose proof (mmc_file_buffer_eq CAP dfu b1 st Hcur Hcap ltac:(fold cur n1; lia)) as H1.
  fold cur buf n1 in H1. rewrite (Hgt (cur + n1)) in H1 by lia.
  set (buf1 := firstn (Z.to_nat cur) buf ++ b1 ++ skipn (Z.to_nat (cur + n1)) buf) in *.
  set (st1 := set_file_buf st buf1 (cur + n1)) in *.
  assert (Hlen_first : List.length (firstn (Z.to_nat cur) buf) = Z.to_nat cur).
  { apply firstn_length_le. subst buf. lia. }
  assert (Hlen1 : Z.of_nat (List.length buf1) = CAP).
  { subst buf1. rewrite !length_app, Hlen_first, length_skipn. subst buf n1. lia. }
  (* the second append *)
  assert (Hn1 : 0 <= n1) by (subst n1; lia).
  assert (Hn2 : 0 <= n2) by (subst n2; lia).
  assert (Hcur1 : 0 <= dfu_file_buf_len st1) by (subst st1; cbn [dfu_file_buf_len set_file_buf]; lia).
  assert (Hfit1 : dfu_file_buf_len st1 + Z.of_nat (List.length b2) <= LONG_MAX)
    by (subst st1; cbn [dfu_file_buf_len set_file_buf]; fold n2; lia).
  pose proof (mmc_file_buffer_eq CAP dfu b2 st1 Hcur1 Hlen1 Hfit1) as H2.
  subst st1. cbn [dfu_file_buf_len dfu_file_buf set_file_buf] in H2. fold n2 in H2.
  set (st1 := set_file_buf st buf1 (cur + n1)) in *.
  rewrite (Hgt (cur + n1 + n2)) in H2 by lia.
  (* the two chunks at once *)
  pose proof (mmc_file_buffer_eq CAP dfu (b1 ++ b2) st Hcur Hcap
                ltac:(rewrite length_app, Nat2Z.inj_add; fold cur n1 n2; lia)) as H12.
  rewrite length_app, Nat2Z.inj_add in H12. fold cur buf n1 n2 in H12.
  rewrite (Hgt (cur + (n1 + n2))) in H12 by lia.
  exists st1. eexists. split; [exact H1|]. split; [exact H2|].
  rewrite H12. f_equal. f_equal.
  unfold set_file_buf. cbn [mmc_devices trace console st1 set_file_buf].
  f_equal; [|lia].
  assert (Hf : firstn (Z.to_nat (cur + n1)) buf1 = firstn (Z.to_nat cur) buf ++ b1).
  { subst buf1. rewrite app_assoc. apply firstn_app_exact.
    rewrite length_app, Hlen_first. subst n1. lia. }
  assert (Hs : skipn (Z.to_nat (cur + n1 + n2)) buf1
               = skipn (Z.to_nat (cur + (n1 + n2))) buf).
  { subst buf1. rewrite app_assoc.
    rewrite (skipn_app_exact _ _ _ _ (Z.to_nat n2))
      by (rewrite length_app, Hlen_first; subst n1 n2; lia).
    rewrite skipn_skipn. f_equal. subst n1 n2. lia. }
  rewrite Hf, Hs, <- !app_assoc. reflexivity.
Qed.

Lemma staging_appends_compose_witness :
  exists st1 st2,
    mmc_file_buffer 8 (fs_entity DFU_FS_FAT 0 1) (repeat x02 2) 2 st_staged
      = Some ((0, 2), st1) /\
    mmc_file_buffer 8 (fs_entity DFU_FS_FAT 0 1) (repeat x03 1) 1 st1
      = Some ((0, 1), st2) /\
    mmc_file_buffer 8 (fs_entity DFU_FS_FAT 0 1) (repeat x02 2 ++ repeat x03 1) (2 + 1)
      st_staged = Some ((0, 2 + 1), st2).
Proof.
  apply (staging_appends_compose 8 (fs_entity DFU_FS_FAT 0 1) (repeat x02 2)
           (repeat x03 1) st_staged).
  - simpl. lia.
  - reflexivity.
  - vm_compute. discriminate.
  - simpl. lia.
Defined.

(** X8.  A flush after an append hands the write command the bytes
    staged so far: the [cur + len(bytes)] bytes when the append fitted,
    and 0 bytes when it overflowed; the staging length is 0 afterwards in
    both cases. *)
Theorem append_then_flush hw CAP addr dfu bytes st fsname :
  fs_name (layout dfu) = Some fsname ->
  0 <= dfu_file_buf_len st ->
  Z.of_nat (List.length (dfu_file_buf st)) = CAP ->
  dfu_file_buf_len st + Z.of_nat (List.length bytes) <= LONG_MAX ->
  let n := Z.of_nat (List.length bytes) in
  let staged := if dfu_file_buf_len st + n >? CAP then 0 else dfu_file_buf_len st + n in
  let cmd := file_write_command fsname dfu addr staged in
  exists r st1 st2,
    mmc_file_buffer CAP dfu bytes n st = Some ((r, n), st1) /\
    dfu_flush_medium_mmc hw addr dfu st1 = Some (run_command hw (trace st) cmd, st2) /\
    trace st2 = trace st ++ [run_command_call cmd] /\
    dfu_file_buf_len st2 = 0.
Proof.
  intros Hname Hcur Hcap Hfit n staged cmd.
  pose proof (mmc_file_buffer_eq CAP dfu bytes st Hcur Hcap Hfit) as Happ.
  fold n in Happ. subst cmd staged.
  destruct (dfu_file_buf_len st + n >? CAP).
  - destruct (dfu_flush_medium_mmc_fs hw addr dfu
                (set_file_buf st (dfu_file_buf st) 0) fsname Hname)
      as (st2 & Hfl & Htr & Hlen & _).
    do 3 eexists. split; [exact Happ|]. split; [exact Hfl|]. split; assumption.
  - destruct (dfu_flush_medium_mmc_fs hw addr dfu
                (set_file_buf st
                   (firstn (Z.to_nat (dfu_file_buf_len st)) (dfu_file_buf st)
                    ++ bytes ++ skipn (Z.to_nat (dfu_file_buf_len st + n))
                                  (dfu_file_buf st))
                   (dfu_file_buf_len st + n)) fsname Hname)
      as (st2 & Hfl & Htr & Hlen & _).
    do 3 eexists. split; [exact Happ|]. split; [exact Hfl|]. split; assumption.
Qed.

Lemma append_then_flush_witness :
  exists r st1 st2,
    mmc_file_buffer 8 (fs_entity DFU_FS_FAT 0 1) (repeat x02 4) 4 st_staged
      = Some ((r, 4), st1) /\
    dfu_flush_medium_mmc hw_ok 4096 (fs_entity DFU_FS_FAT 0 1) st1
      = Some (0, st2) /\
    trace st2 = [run_command_call "fatwrite mmc 0:1 0x1000 image 0"] /\
    dfu_file_buf_len st2 = 0.
Proof.
  apply (append_then_flush hw_ok 8 4096 (fs_entity DFU_FS_FAT 0 1) (repeat x02 4)
           st_staged "fat"%string).
  - reflexivity.
  - simpl. lia.
  - reflexivity.
  - vm_compute. discriminate.
Defined.

(** ** Filesystem operations *)

(** A read or a size query of a FAT or ext4 entity, step by step. *)
Lemma mmc_file_op_query_eq hw op dfu buf len st fsname :
  fs_name (layout dfu) = Some fsname ->
  op <> DFU_OP_WRITE ->
  let cmd := file_op_command op fsname dfu buf len in
  let r := run_command hw (trace st) cmd in
  let st1 := add_event st (run_command_call cmd) in
  mmc_file_op hw op dfu buf len st
    = if r =? 0 then
        match getenv hw (trace st1) "filesize" with
        | Some str => Some ((r, to_long (simple_strtoul str 16)),
                            add_event st1 (getenv_call "filesize"))
        | None => Some ((-1, len),
                        add_message (add_event st1 (getenv_call "filesize"))
                          msg_wrong_file_size)
        end
      else Some ((r, len), add_message st1 msg_read_error).
Proof.
  intros Hname Hop cmd r st1. unfold mmc_file_op.
  unfold fs_name in Hname. rewrite Hname.
  destruct op; try contradiction; cbv zeta;
    cbv [bind ret call print];
    fold (file_op_command DFU_OP_READ fsname dfu buf len);
    fold (file_op_command DFU_OP_SIZE fsname dfu buf len);
    fold cmd; fold r; fold st1;
    destruct (r =? 0); cbn [negb]; try reflexivity;
    destruct (getenv hw (trace st1) "filesize"); reflexivity.
Qed.

(** X9.  For a read or a size query of a FAT or ext4 entity,
    [mmc_file_op] runs one command.  If the command fails, its result is
    returned, [*len] is left alone and [filesize] is not looked up.  If
    it succeeds, [filesize] is looked up once: without a value the result
    is [-1] and [*len] is left alone, with a value the result is 0 and
    [*len] is that value read in base 16. *)
Theorem file_op_sets_length_only_on_success hw op dfu buf len st fsname :
  fs_name (layout dfu) = Some fsname ->
  op <> DFU_OP_WRITE ->
  let cmd := file_op_command op fsname dfu buf len in
  let r := run_command hw (trace st) cmd in
  let h := trace st ++ [run_command_call cmd] in
  exists res st',
    mmc_file_op hw op dfu buf len st = Some (res, st') /\
    (r <> 0 -> res = (r, len) /\ trace st' = h) /\
    (r = 0 ->
     trace st' = h ++ [getenv_call "filesize"] /\
     res = match getenv hw h "filesize" with
           | Some str => (0, to_long (simple_strtoul str 16))
           | None => (-1, len)
           end).
Proof.
  intros Hname Hop cmd r h.
  rewrite (mmc_file_op_query_eq hw op dfu buf len st fsname Hname Hop).
  cbv zeta. fold cmd r. cbn [trace add_event]. fold h.
  destruct (Z.eqb_spec r 0) as [E|E].
  - destruct (getenv hw h "filesize");
      eexists; eexists; (split; [reflexivity|]);
      (split; [intros H; contradiction|]); intros _;
      (split; [reflexivity|]); rewrite ?E; reflexivity.
  - eexists; eexists. split; [reflexivity|].
    split; [intros _; split; reflexivity | intros H; contradiction].
Qed.

Lemma file_op_sets_length_only_on_success_witness :
  exists st',
    mmc_file_op hw_part DFU_OP_READ (fs_entity DFU_FS_FAT 0 1) 4096 7 st_one
      = Some ((0, 8000), st') /\
    trace st' = [run_command_call "fatload mmc 0:1 0x1000 image";
                 getenv_call "filesize"].
Proof.
  destruct (file_op_sets_length_only_on_success hw_part DFU_OP_READ
              (fs_entity DFU_FS_FAT 0 1) 4096 7 st_one "fat"%string)
    as (res & st' & Hrun & _ & Hok).
  - reflexivity.
  - discriminate.
  - destruct Hok as (Htr & Hres); [reflexivity|].
    exists st'. split; [rewrite Hrun, Hres; reflexivity | exact Htr].
Defined.

(** X10.  The size query of a FAT or ext4 entity returns the status of
    the size command when it is negative, and the value of [filesize]
    (or [-1] without one) when it is 0.  When the status is positive it
    returns what the local [len] held before the call: the test of line
    229 lets a positive status through and [mmc_file_op] has not written
    [len]. *)
Theorem fs_size_query hw dfu len0 st fsname :
  fs_name (layout dfu) = Some fsname ->
  let cmd := file_op_command DFU_OP_SIZE fsname dfu 0 len0 in
  let r := run_command hw (trace st) cmd in
  let h := trace st ++ [run_command_call cmd] in
  exists sz st',
    dfu_get_medium_size_mmc hw dfu len0 st = Some (sz, st') /\
    (r < 0 -> sz = r) /\
    (0 < r -> sz = len0) /\
    (r = 0 ->
     sz = match getenv hw h "filesize" with
          | Some str => to_long (simple_strtoul str 16)
          | None => -1
          end).
Proof.
  intros Hname cmd r h.
  pose proof (mmc_file_op_query_eq hw DFU_OP_SIZE dfu 0 len0 st fsname Hname
                ltac:(discriminate)) as Hrun.
  cbv zeta in Hrun. fold cmd r in Hrun. cbn [trace add_event] in Hrun. fold h in Hrun.
  assert (Hraw : layout dfu = DFU_FS_FAT \/ layout dfu = DFU_FS_EXT4)
    by (destruct (layout dfu); try discriminate; auto).
  assert (Hsz : dfu_get_medium_size_mmc hw dfu len0 st
                = (res0 <- mmc_file_op hw DFU_OP_SIZE dfu 0 len0 ;;
                   (if fst res0 <? 0 then ret (fst res0) else ret (snd res0))) st).
  { unfold dfu_get_medium_size_mmc. destruct Hraw as [-> | ->]; reflexivity. }
  rewrite Hsz. unfold bind. rewrite Hrun.
  destruct (Z.eqb_spec r 0) as [E|E].
  - destruct (getenv hw h "filesize"); cbn [fst snd]; rewrite E; cbn [Z.ltb Z.compare];
      eexists; eexists; (split; [reflexivity|]);
      repeat split; intros H; try lia; reflexivity.
  - cbn [fst snd]. destruct (r <? 0) eqn:Hneg;
      eexists; eexists; (split; [reflexivity|]);
      repeat split; intros H; try reflexivity; try contradiction.
    + apply Z.ltb_lt in Hneg. lia.
    + apply Z.ltb_ge in Hneg. lia.
Qed.

Lemma fs_size_query_witness :
  exists st',
    dfu_get_medium_size_mmc hw_no_fs (fs_entity DFU_FS_EXT4 0 1) 12345 st_one
      = Some (12345, st').
Proof.
  destruct (fs_size_query hw_no_fs (fs_entity DFU_FS_EXT4 0 1) 12345 st_one
              "ext4"%string eq_refl) as (sz & st' & Hrun & _ & Hpos & _).
  exists st'. rewrite Hrun, Hpos; [reflexivity|]. vm_compute. reflexivity.
Defined.

(** X11.  The size of a raw entity is [lba_size * lba_blk_size] reduced
    to 32 bits and read as a [long]: it is that product whenever the
    product is at most [LONG_MAX].  Nothing is called. *)
Theorem raw_size_query hw dfu len0 st :
  layout dfu = DFU_RAW_ADDR ->
  let bytes := lba_size (data_mmc dfu) * lba_blk_size (data_mmc dfu) in
  exists sz,
    dfu_get_medium_size_mmc hw dfu len0 st = Some (sz, st) /\
    (sz - bytes) mod 2 ^ 32 = 0 /\
    - 2 ^ 31 <= sz <= LONG_MAX /\
    (0 <= bytes <= LONG_MAX -> sz = bytes).
Proof.
  intros Hl bytes. unfold dfu_get_medium_size_mmc. rewrite Hl.
  eexists. split; [reflexivity|]. fold bytes.
  unfold to_long, to_u32, wrap_signed, wrap_unsigned, LONG_MAX.
  change (2 ^ (32 - 1)) with (2 ^ 31).
  pose proof (Z.mod_pos_bound bytes (2 ^ 32) ltac:(lia)) as Hb.
  pose proof (Z.mod_pos_bound (bytes mod 2 ^ 32 + 2 ^ 31) (2 ^ 32) ltac:(lia)) as Hs.
  split; [|split].
  - rewrite (Z.mod_eq (bytes mod 2 ^ 32 + 2 ^ 31) (2 ^ 32)) by lia.
    rewrite (Z.mod_eq bytes (2 ^ 32)) at 1 by lia.
    match goal with
    | |- (?a - 2 ^ 32 * ?q1 + 2 ^ 31 - 2 ^ 32 * ?q2 - 2 ^ 31 - ?a) mod _ = 0 =>
        replace (a - 2 ^ 32 * q1 + 2 ^ 31 - 2 ^ 32 * q2 - 2 ^ 31 - a)
          with ((- (q1 + q2)) * 2 ^ 32) by ring
    end.
    apply Z_mod_mult.
  - lia.
  - intros Hfit. rewrite (Z.mod_small bytes) by lia.
    rewrite Z.mod_small by lia. lia.
Qed.

Lemma raw_size_query_witness :
  dfu_get_medium_size_mmc hw_ok (raw_entity 10 20 (- EINVAL)) 0 st_one
    = Some (10240, st_one).
Proof.
  destruct (raw_size_query hw_ok (raw_entity 10 20 (- EINVAL)) 0 st_one eq_refl)
    as (sz & Hrun & _ & _ & Hexact).
  rewrite Hrun, Hexact; [reflexivity|]. vm_compute. split; discriminate.
Defined.

(** X12.  On an entity whose layout is none of raw, FAT and ext4, read,
    write and size query return [-1] and flush returns [-1] too; none of
    them calls the platform, and the flush still sets the staging length
    to 0. *)
Theorem unsupported_layout hw CAP addr dfu offset buf len len0 st :
  layout dfu = DFU_LAYOUT_OTHER ->
  (exists st', dfu_read_medium_mmc hw dfu offset buf len st = Some ((-1, len), st') /\
               trace st' = trace st /\ same_staging st st') /\
  (exists st', dfu_write_medium_mmc hw CAP dfu offset buf len st = Some ((-1, len), st') /\
               trace st' = trace st /\ same_staging st st') /\
  (exists st', dfu_get_medium_size_mmc hw dfu len0 st = Some (-1, st') /\
               trace st' = trace st /\ same_staging st st') /\
  (exists st', dfu_flush_medium_mmc hw addr dfu st = Some (-1, st') /\
               trace st' = trace st /\ dfu_file_buf_len st' = 0).
Proof.
  intros Hl.
  unfold dfu_read_medium_mmc, dfu_write_medium_mmc, dfu_get_medium_size_mmc,
    dfu_flush_medium_mmc, mmc_file_op.
  rewrite Hl. cbv [bind ret print].
  repeat split; eexists; (split; [reflexivity|]); repeat split.
Qed.

Lemma unsupported_layout_witness :
  exists st',
    dfu_flush_medium_mmc hw_ok 4096 blank_entity st_staged = Some (-1, st') /\
    trace st' = trace st_staged /\
    dfu_file_buf_len st' = 0.
Proof.
  apply (unsupported_layout hw_ok 8 4096 blank_entity 0
           {| buf_addr := 0; buf_bytes := [] |} 0 0 st_staged).
  reflexivity.
Defined.

(** ** Descriptor parser: the accepted descriptors *)

Lemma split_at_space_nospace a :
  count_spaces a = O -> split_at_space a = (a, None).
Proof.
  induction a as [|c r IH]; simpl; [reflexivity|].
  destruct (Ascii.eqb c " "); [discriminate|].
  intros H. rewrite (IH H). reflexivity.
Qed.

Lemma split_at_space_app a r :
  count_spaces a = O ->
  split_at_space (a ++ String " " r) = (a, Some r).
Proof.
  induction a as [|c a' IH]; simpl; [reflexivity|].
  destruct (Ascii.eqb c " "); [discriminate|].
  intros H. rewrite (IH H). reflexivity.
Qed.

(** The three tokens the loop of lines 284-290 takes from a descriptor
    whose fields hold no space, and what is left for line 322. *)
Lemma fill_argv_descriptor t a1 a2 suffix :
  count_spaces t = O -> count_spaces a1 = O -> count_spaces a2 = O ->
  fill_argv 3 (Some (descriptor t a1 a2 suffix)) = (Some [t; a1; a2], suffix).
Proof.
  intros Ht H1 H2.
  assert (Hd : descriptor t a1 a2 suffix
               = (t ++ String " " (a1 ++ String " "
                    match suffix with
                    | None => a2
                    | Some x => a2 ++ String " " x
                    end))%string)
    by (destruct suffix; reflexivity).
  rewrite Hd. cbn [fill_argv]. unfold strsep at 1.
  rewrite (split_at_space_app t _ Ht). unfold strsep at 1.
  rewrite (split_at_space_app a1 _ H1). unfold strsep.
  destruct suffix as [x|].
  - rewrite (split_at_space_app a2 _ H2). reflexivity.
  - rewrite (split_at_space_nospace a2 H2). reflexivity.
Qed.

(** Runs [dfu_fill_entity_mmc] up to the choice of the type, for a
    descriptor whose tokens are known ([Hargv]) on a device that is found
    ([Hm]) and initialises ([Hinit]). *)
Ltac fill_entity_run Hargv Hm Hinit :=
  unfold dfu_fill_entity_mmc; rewrite Hargv; cbv beta iota zeta;
  cbv [bind ret call print find_mmc_device load_mmc store_mmc_desc];
  rewrite Hm; cbn [mmc_devices add_event trace]; rewrite Hm, Hinit;
  cbn [fst snd Z.eqb negb];
  repeat match goal with
  | |- context [streq ?a ?b] =>
      let v := eval vm_compute in (streq a b) in
      change (streq a b) with v
  end;
  cbv beta iota;
  cbn [mmc_devices set_mmc_devices];
  try (erewrite lookup_store_same by exact Hm).

(** A raw descriptor on a device that is found and initialises. *)
Lemma fill_entity_raw_eq hw dfu st m m' arg2 arg3 suffix :
  count_spaces arg2 = O -> count_spaces arg3 = O ->
  lookup_mmc (dev_num dfu) (mmc_devices st) = Some m ->
  mmc_init hw (trace st) (dev_num dfu) m = (0, m') ->
  dfu_fill_entity_mmc hw dfu (descriptor "raw" arg2 arg3 suffix) st
    = match mmcpart_of suffix with
      | Some hwp =>
          Some ((0, filled dfu DFU_RAW_ADDR
                      (raw_data dfu (to_u32 (simple_strtoul arg2 0))
                                (to_u32 (simple_strtoul arg3 0))
                                (to_u32 (read_bl_len m')) hwp)),
                after_init st (dev_num dfu) m')
      | None => None
      end.
Proof.
  intros H2 H3 Hm Hinit.
  pose proof (fill_argv_descriptor "raw" arg2 arg3 suffix eq_refl H2 H3) as Hargv.
  fill_entity_run Hargv Hm Hinit.
  unfold mmcpart_of, strsep.
  destruct suffix as [x|]; [|reflexivity].
  destruct (split_at_space x) as [tok rest].
  destruct (streq tok "mmcpart"); [|reflexivity].
  destruct rest; reflexivity.
Qed.

(** X13.  ["raw <start> <size>"], alone or followed by fields of which
    the first is not [mmcpart], yields a raw entity: the area is the two
    numbers, the block size is the read block size the device has after
    its initialisation, no hardware partition is selected, and the
    fields [dev] and [part] of the entity keep their values.  The only
    call is the one to [mmc_init]. *)
Theorem raw_descriptor hw dfu st m m' arg2 arg3 suffix :
  count_spaces arg2 = O -> count_spaces arg3 = O ->
  (forall x, suffix = Some x -> streq (first_field x) "mmcpart" = false) ->
  lookup_mmc (dev_num dfu) (mmc_devices st) = Some m ->
  mmc_init hw (trace st) (dev_num dfu) m = (0, m') ->
  dfu_fill_entity_mmc hw dfu (descriptor "raw" arg2 arg3 suffix) st
    = Some ((0, filled dfu DFU_RAW_ADDR
                  (raw_data dfu (to_u32 (simple_strtoul arg2 0))
                            (to_u32 (simple_strtoul arg3 0))
                            (to_u32 (read_bl_len m')) (- EINVAL))),
            after_init st (dev_num dfu) m').
Proof.
  intros H2 H3 Hsuf Hm Hinit.
  rewrite (fill_entity_raw_eq hw dfu st m m' arg2 arg3 suffix H2 H3 Hm Hinit).
  unfold mmcpart_of. destruct suffix as [x|]; [|reflexivity].
  specialize (Hsuf x eq_refl). unfold first_field in Hsuf.
  destruct (split_at_space x) as [tok rest]. cbn [fst] in Hsuf.
  rewrite Hsuf. reflexivity.
Qed.

Lemma raw_descriptor_witness :
  dfu_fill_entity_mmc hw_ok blank_entity (descriptor "raw" "0x800" "64" (Some "boot"%string)) st_one
    = Some ((0, filled blank_entity DFU_RAW_ADDR (raw_data blank_entity 2048 64 512 (- EINVAL))),
            after_init st_one 0 mmc0).
Proof.
  apply (raw_descriptor hw_ok blank_entity st_one mmc0 mmc0 "0x800" "64" (Some "boot")%string).
  - reflexivity.
  - reflexivity.
  - intros x Hx. injection Hx as <-. reflexivity.
  - reflexivity.
  - reflexivity.
Defined.

(** X14.  ["raw <start> <size> mmcpart <n>"] yields the same raw entity
    with hardware partition [n]: what follows the keyword is read as a
    number, whatever else it holds. *)
Theorem raw_descriptor_mmcpart hw dfu st m m' arg2 arg3 num :
  count_spaces arg2 = O -> count_spaces arg3 = O ->
  lookup_mmc (dev_num dfu) (mmc_devices st) = Some m ->
  mmc_init hw (trace st) (dev_num dfu) m = (0, m') ->
  dfu_fill_entity_mmc hw dfu
      (descriptor "raw" arg2 arg3 (Some ("mmcpart" ++ " " ++ num)%string)) st
    = Some ((0, filled dfu DFU_RAW_ADDR
                  (raw_data dfu (to_u32 (simple_strtoul arg2 0))
                            (to_u32 (simple_strtoul arg3 0))
                            (to_u32 (read_bl_len m'))
                            (to_int (simple_strtoul num 0)))),
            after_init st (dev_num dfu) m').
Proof.
  intros H2 H3 Hm Hinit.
  rewrite (fill_entity_raw_eq hw dfu st m m' arg2 arg3 _ H2 H3 Hm Hinit).
  reflexivity.
Qed.

Lemma raw_descriptor_mmcpart_witness :
  dfu_fill_entity_mmc hw_ok blank_entity
      (descriptor "raw" "0" "0x10" (Some ("mmcpart" ++ " " ++ "1 rest")%string)) st_one
    = Some ((0, filled blank_entity DFU_RAW_ADDR (raw_data blank_entity 0 16 512 1)),
            after_init st_one 0 mmc0).
Proof.
  apply (raw_descriptor_mmcpart hw_ok blank_entity st_one mmc0 mmc0 "0" "0x10" "1 rest");
    reflexivity.
Defined.

(** X15.  ["raw <start> <size> mmcpart"], with nothing after the
    keyword, is not refused: [strsep] leaves [NULL] in [s] and line 325
    hands it to [simple_strtoul].  The model has no result there. *)
Theorem raw_descriptor_bare_mmcpart hw dfu st m m' arg2 arg3 :
  count_spaces arg2 = O -> count_spaces arg3 = O ->
  lookup_mmc (dev_num dfu) (mmc_devices st) = Some m ->
  mmc_init hw (trace st) (dev_num dfu) m = (0, m') ->
  dfu_fill_entity_mmc hw dfu (descriptor "raw" arg2 arg3 (Some "mmcpart"%string)) st
    = None.
Proof.
  intros H2 H3 Hm Hinit.
  rewrite (fill_entity_raw_eq hw dfu st m m' arg2 arg3 _ H2 H3 Hm Hinit).
  reflexivity.
Qed.

Lemma raw_descriptor_bare_mmcpart_witness :
  dfu_fill_entity_mmc hw_ok blank_entity "raw 100 50 mmcpart" st_one = None.
Proof.
  apply (raw_descriptor_bare_mmcpart hw_ok blank_entity st_one mmc0 mmc0 "100" "50");
    reflexivity.
Defined.

(** X16.  ["fat <dev> <part>"] and ["ext4 <dev> <part>"] yield a FAT or
    ext4 entity with the two numbers as device and partition.  The area
    fields of the entity keep their values, and whatever follows the
    third field is ignored, a suffix [mmcpart <n>] too: no hardware
    partition is selected. *)
Theorem fs_descriptor hw dfu st m m' t l arg2 arg3 suffix :
  (t = "fat"%string /\ l = DFU_FS_FAT) \/ (t = "ext4"%string /\ l = DFU_FS_EXT4) ->
  count_spaces arg2 = O -> count_spaces arg3 = O ->
  lookup_mmc (dev_num dfu) (mmc_devices st) = Some m ->
  mmc_init hw (trace st) (dev_num dfu) m = (0, m') ->
  dfu_fill_entity_mmc hw dfu (descriptor t arg2 arg3 suffix) st
    = Some ((0, filled dfu l (fs_data dfu (to_u32 (simple_strtoul arg2 0))
                                       (to_u32 (simple_strtoul arg3 0)))),
            after_init st (dev_num dfu) m').
Proof.
  intros Ht H2 H3 Hm Hinit.
  destruct Ht as [[-> ->] | [-> ->]].
  - pose proof (fill_argv_descriptor "fat" arg2 arg3 suffix eq_refl H2 H3) as Hargv.
    fill_entity_run Hargv Hm Hinit. reflexivity.
  - pose proof (fill_argv_descriptor "ext4" arg2 arg3 suffix eq_refl H2 H3) as Hargv.
    fill_entity_run Hargv Hm Hinit. reflexivity.
Qed.

Lemma fs_descriptor_witness :
  dfu_fill_entity_mmc hw_ok blank_entity "ext4 0 2 mmcpart 1" st_one
    = Some ((0, filled blank_entity DFU_FS_EXT4 (fs_data blank_entity 0 2)),
            after_init st_one 0 mmc0).
Proof.
  apply (fs_descriptor hw_ok blank_entity st_one mmc0 mmc0 "ext4" DFU_FS_EXT4
           "0" "2" (Some "mmcpart 1")%string).
  - right. split; reflexivity.
  - reflexivity.
  - reflexivity.
  - reflexivity.
  - reflexivity.
Defined.

(** X17.  ["part <dev> <part>"] looks the partition up on the device of
    the entity ([dev_num]), whatever device the descriptor names.  If it
    is found, the entity becomes a raw entity over the start, size and
    block size of the partition, without hardware partition, and records
    the two numbers as [dev] and [part]; if not, the result is [-ENODEV]
    and only [hw_partition] of the entity has changed. *)
Theorem part_descriptor hw dfu st m m' arg2 arg3 suffix :
  count_spaces arg2 = O -> count_spaces arg3 = O ->
  lookup_mmc (dev_num dfu) (mmc_devices st) = Some m ->
  mmc_init hw (trace st) (dev_num dfu) m = (0, m') ->
  let second_arg := to_u32 (simple_strtoul arg2 0) in
  let third_arg := to_u32 (simple_strtoul arg3 0) in
  let st1 := after_init st (dev_num dfu) m' in
  let e := get_partition_info_call (dev_num dfu) (to_int third_arg) in
  dfu_fill_entity_mmc hw dfu (descriptor "part" arg2 arg3 suffix) st
    = match get_partition_info hw (trace st1) (dev_num dfu) (to_int third_arg) with
      | Some info =>
          Some ((0, filled dfu DFU_RAW_ADDR
                      {| lba_start := to_u32 (start info);
                         lba_size := to_u32 (size info);
                         lba_blk_size := to_u32 (blksz info);
                         hw_partition := - EINVAL;
                         dev := second_arg; part := third_arg |}),
                add_event st1 e)
      | None =>
          Some ((- ENODEV, set_data dfu (set_hw_partition (data_mmc dfu) (- EINVAL))),
                add_message (add_event st1 e)
                  (msg_no_partition (to_int third_arg) (to_int second_arg)))
      end.
Proof.
  intros H2 H3 Hm Hinit second_arg third_arg st1 e.
  pose proof (fill_argv_descriptor "part" arg2 arg3 suffix eq_refl H2 H3) as Hargv.
  fill_entity_run Hargv Hm Hinit.
  fold second_arg third_arg. subst st1 e. unfold after_init.
  cbn [trace set_mmc_devices add_event dev_num set_data].
  destruct (get_partition_info hw _ (dev_num dfu) (to_int third_arg));
    reflexivity.
Qed.

Lemma part_descriptor_witness :
  dfu_fill_entity_mmc hw_part blank_entity "part 7 1" st_one
    = Some ((0, filled blank_entity DFU_RAW_ADDR
                  {| lba_start := 2048; lba_size := 4096; lba_blk_size := 512;
                     hw_partition := - EINVAL; dev := 7; part := 1 |}),
            add_event (after_init st_one 0 mmc0) (get_partition_info_call 0 1)).
Proof.
  apply (part_descriptor hw_part blank_entity st_one mmc0 mmc0 "7" "1" None);
    reflexivity.
Defined.

(** ** Descriptor parser: the refused descriptors *)

(** X18.  For a descriptor of three fields or more, whatever its type:
    if the device of the entity is not found the parser returns
    [-ENODEV] without any call to the platform, and if [mmc_init] fails
    it returns [-ENODEV] after that one call.  In both cases the entity
    is left as it was. *)
Theorem fill_entity_without_device hw dfu s st :
  (2 <= count_spaces s)%nat ->
  (lookup_mmc (dev_num dfu) (mmc_devices st) = None ->
   dfu_fill_entity_mmc hw dfu s st
     = Some ((- ENODEV, dfu), add_message st (msg_no_mmc_device (dev_num dfu)))) /\
  (forall m r m',
     lookup_mmc (dev_num dfu) (mmc_devices st) = Some m ->
     mmc_init hw (trace st) (dev_num dfu) m = (r, m') ->
     r <> 0 ->
     dfu_fill_entity_mmc hw dfu s st
       = Some ((- ENODEV, dfu),
               add_message (after_init st (dev_num dfu) m') msg_no_mmc_init)).
Proof.
  intros Hc. pose proof (fill_argv_3 s) as Hargv.
  assert (Hlt : (count_spaces s <? 2)%nat = false) by (apply Nat.ltb_ge; exact Hc).
  rewrite Hlt in Hargv. destruct Hargv as (argv1 & argv2 & rest & Hargv).
  unfold dfu_fill_entity_mmc. rewrite Hargv.
  cbv [bind ret call print find_mmc_device load_mmc store_mmc_desc].
  split.
  - intros Hm. rewrite Hm. reflexivity.
  - intros m r m' Hm Hinit Hr. rewrite Hm. cbn [mmc_devices add_event trace].
    rewrite Hm, Hinit. cbn [fst snd].
    apply Z.eqb_neq in Hr. rewrite Hr. reflexivity.
Qed.

Lemma fill_entity_without_device_witness :
  dfu_fill_entity_mmc hw_no_switch blank_entity "raw 100 50" st_one
    = Some ((- ENODEV, blank_entity),
            add_message (after_init st_one 0 mmc0) msg_no_mmc_init).
Proof.
  apply (proj2 (fill_entity_without_device hw_no_switch blank_entity "raw 100 50" st_one
                  ltac:(simpl; lia)) mmc0 (-1) mmc0).
  - reflexivity.
  - reflexivity.
  - discriminate.
Defined.

Lemma supported_type_true t :
  streq t "raw" = true \/ streq t "part" = true \/
  streq t "fat" = true \/ streq t "ext4" = true ->
  supported_type t = true.
Proof.
  unfold supported_type. intros [H | [H | [H | H]]]; rewrite H;
    rewrite ?orb_true_r; reflexivity.
Qed.

(** X19.  What a result of the parser says.  The name and the device
    number of the entity are never changed.  The result is 0 or
    [-ENODEV].  With 0 the descriptor had three fields or more, its first
    field was one of the four types, the device was found, and the entity
    is an MMC entity with [inited = 0] and a raw, FAT or ext4 layout.
    With [-ENODEV] the entity is as before, except possibly for
    [hw_partition]. *)
Theorem fill_entity_result hw dfu s st r dfu' st' :
  dfu_fill_entity_mmc hw dfu s st = Some ((r, dfu'), st') ->
  name dfu' = name dfu /\
  dev_num dfu' = dev_num dfu /\
  ((r = 0 /\
    (2 <= count_spaces s)%nat /\
    supported_type (first_field s) = true /\
    lookup_mmc (dev_num dfu) (mmc_devices st) <> None /\
    dev_type dfu' = DFU_DEV_MMC /\
    inited dfu' = 0 /\
    layout dfu' <> DFU_LAYOUT_OTHER)
   \/
   (r = - ENODEV /\
    layout dfu' = layout dfu /\
    dev_type dfu' = dev_type dfu /\
    inited dfu' = inited dfu /\
    set_hw_partition (data_mmc dfu') 0 = set_hw_partition (data_mmc dfu) 0)).
Proof.
  intros Hrun. pose proof (fill_argv_3 s) as Hargv.
  unfold dfu_fill_entity_mmc in Hrun.
  destruct (count_spaces s <? 2)%nat eqn:Hc.
  - (* fewer than three fields *)
    destruct (fill_argv 3 (Some s)) as [[toks|] rest]; [discriminate|].
    cbv [bind ret print] in Hrun. injection Hrun as <- <- _.
    repeat split. right. repeat split.
  - apply Nat.ltb_ge in Hc.
    destruct Hargv as (argv1 & argv2 & rest & Hargv). rewrite Hargv in Hrun.
    cbv [bind ret call print find_mmc_device load_mmc store_mmc_desc] in Hrun.
    destruct (lookup_mmc (dev_num dfu) (mmc_devices st)) as [m|] eqn:Hm.
    2:{ injection Hrun as <- <- _. repeat split. right. repeat split. }
    cbn [mmc_devices add_event trace] in Hrun. rewrite Hm in Hrun.
    destruct (mmc_init hw (trace st) (dev_num dfu) m) as [ri m'] eqn:Hinit.
    cbn [fst snd] in Hrun.
    destruct (ri =? 0); cbn [negb] in Hrun.
    2:{ injection Hrun as <- <- _. repeat split. right. repeat split. }
    assert (Hfound : Some m <> None) by discriminate.
    unfold fill_entity_tail in Hrun.
    destruct (streq (first_field s) "raw") eqn:Eraw.
    { (* raw *)
      cbn [mmc_devices set_mmc_devices] in Hrun.
      erewrite lookup_store_same in Hrun by exact Hm.
      cbn [negb] in Hrun.
      assert (Hok : forall d, name (set_data (set_layout
                        (set_data dfu (set_hw_partition (data_mmc dfu) (- EINVAL)))
                        DFU_RAW_ADDR) d) = name dfu) by reflexivity.
      destruct rest as [x|].
      - unfold strsep in Hrun. destruct (split_at_space x) as [tok rest'].
        destruct (streq tok "mmcpart").
        + destruct rest' as [num|]; [|discriminate].
          injection Hrun as <- <- _. repeat split. left.
          repeat split; auto using supported_type_true. discriminate.
        + injection Hrun as <- <- _. repeat split. left.
          repeat split; auto using supported_type_true. discriminate.
      - injection Hrun as <- <- _. repeat split. left.
        repeat split; auto using supported_type_true. discriminate. }
    cbn [negb] in Hrun.
    destruct (streq (first_field s) "part") eqn:Epart.
    { (* part *)
      destruct (get_partition_info hw _ _ _).
      - injection Hrun as <- <- _. repeat split. left.
        repeat split; auto using supported_type_true. discriminate.
      - injection Hrun as <- <- _. repeat split. right. repeat split. }
    destruct (streq (first_field s) "fat") eqn:Efat.
    { injection Hrun as <- <- _. repeat split. left.
      repeat split; auto using supported_type_true. discriminate. }
    destruct (streq (first_field s) "ext4") eqn:Eext4.
    { injection Hrun as <- <- _. repeat split. left.
      repeat split; auto 6 using supported_type_true. discriminate. }
    injection Hrun as <- <- _. repeat split. right. repeat split.
Qed.

Lemma fill_entity_result_witness :
  name (filled blank_entity DFU_FS_EXT4 (fs_data blank_entity 0 2)) = name blank_entity /\
  supported_type (first_field "ext4 0 2 mmcpart 1") = true.
Proof.
  destruct (fill_entity_result hw_ok blank_entity "ext4 0 2 mmcpart 1" st_one 0
              (filled blank_entity DFU_FS_EXT4 (fs_data blank_entity 0 2))
              (after_init st_one 0 mmc0) eq_refl)
    as (Hname & _ & [Hok | Hbad]).
  - split; [exact Hname|]. apply Hok.
  - destruct Hbad as [Hr _]. discriminate Hr.
Defined.

(** ** Parser and raw access together *)

(** X20.  An entity filled from ["raw <start> <size>"] without
    [mmcpart] never switches partitions: every raw access on it returns,
    makes no call to [mmc_switch_part], and leaves the partition that is
    recorded as active. *)
Theorem parsed_raw_entity_never_switches hw dfu st m m' arg2 arg3 op offset buf len :
  count_spaces arg2 = O -> count_spaces arg3 = O ->
  lookup_mmc (dev_num dfu) (mmc_devices st) = Some m ->
  mmc_init hw (trace st) (dev_num dfu) m = (0, m') ->
  0 < read_bl_len m' < 2 ^ 32 ->
  exists dfu' st1 r st2,
    dfu_fill_entity_mmc hw dfu (descriptor "raw" arg2 arg3 None) st
      = Some ((0, dfu'), st1) /\
    mmc_block_op hw op dfu' offset buf len st1
      = Some ((r, ALIGN len (read_bl_len m')), st2) /\
    switch_calls (trace st2) = switch_calls (trace st1) /\
    active_part (dev_num dfu) st2 = Some (part_num m').
Proof.
  intros H2 H3 Hm Hinit HB.
  pose proof (fill_entity_raw_eq hw dfu st m m' arg2 arg3 None H2 H3 Hm Hinit) as Hfill.
  cbn [mmcpart_of] in Hfill.
  set (dfu' := filled dfu DFU_RAW_ADDR _) in Hfill.
  set (st1 := after_init st (dev_num dfu) m') in *.
  assert (Hm1 : lookup_mmc (dev_num dfu') (mmc_devices st1) = Some m')
    by (apply lookup_store_same with (m := m); exact Hm).
  assert (HB1 : lba_blk_size (data_mmc dfu') = read_bl_len m')
    by (apply to_u32_small; lia).
  assert (HB' : 0 < lba_blk_size (data_mmc dfu') < 2 ^ 32) by (rewrite HB1; exact HB).
  assert (Hno : needs_switch dfu' m' = false) by reflexivity.
  exists dfu', st1. rewrite <- HB1.
  rewrite (mmc_block_op_eq hw _ _ _ _ _ _ _ Hm1 HB').
  destruct (exceeds_area _ _ _).
  - do 2 eexists. split; [exact Hfill|]. split; [reflexivity|].
    split; [reflexivity|]. unfold active_part.
    change (dev_num dfu) with (dev_num dfu').
    cbn [mmc_devices add_message]. rewrite Hm1. reflexivity.
  - destruct (mmc_block_transfer_spec hw op dfu' buf
                (ALIGN len (lba_blk_size (data_mmc dfu')))
                (blk_start_at dfu' offset) (blk_count_at dfu' len) st1 m' Hm1)
      as (st2 & Hrun & Htr & Hact).
    cbv zeta in Hrun, Htr, Hact.
    unfold switch_in_answer, switch_in_events, switch_back_answer,
      switch_back_events, needs_switch_back in Hrun, Htr, Hact.
    rewrite Hno in Hrun, Htr, Hact. cbn [Z.eqb andb] in Hrun, Htr, Hact.
    rewrite Hrun. do 2 eexists. split; [exact Hfill|]. split; [reflexivity|].
    split.
    + rewrite Htr, !switch_calls_app, switch_calls_transfer_events, !app_nil_r.
      reflexivity.
    + exact Hact.
Qed.

Lemma parsed_raw_entity_never_switches_witness :
  exists dfu' st1 r st2,
    dfu_fill_entity_mmc hw_no_switch_init_ok blank_entity (descriptor "raw" "100" "50" None)
      st_one = Some ((0, dfu'), st1) /\
    mmc_block_op hw_no_switch_init_ok DFU_OP_WRITE dfu' 0 0 512 st1
      = Some ((r, ALIGN 512 (read_bl_len mmc0)), st2) /\
    switch_calls (trace st2) = switch_calls (trace st1) /\
    active_part (dev_num blank_entity) st2 = Some (part_num mmc0).
Proof.
  apply (parsed_raw_entity_never_switches hw_no_switch_init_ok blank_entity st_one
           mmc0 mmc0 "100" "50" DFU_OP_WRITE 0 0 512).
  - reflexivity.
  - reflexivity.
  - reflexivity.
  - reflexivity.
  - simpl. lia.
Defined.

(** ** A request of length 0 *)

(** X21.  A read or a write of length 0 is not answered without the
    device: when the start block passes the range check (the very end of
    the area passes it) and the partition switch, if one is needed,
    succeeds, the block device is called for 0 blocks, and the access
    returns [-EIO] unless the device reports 0. *)
Theorem zero_length_access hw op dfu offset buf st m :
  lookup_mmc (dev_num dfu) (mmc_devices st) = Some m ->
  0 < lba_blk_size (data_mmc dfu) < 2 ^ 32 ->
  op <> DFU_OP_SIZE ->
  exceeds_area (data_mmc dfu) (blk_start_at dfu offset) 0 = false ->
  switch_in_answer hw dfu m (trace st) = 0 ->
  let h := trace st ++ switch_in_events dfu m in
  exists r st',
    mmc_block_op hw op dfu offset buf 0 st = Some ((r, 0), st') /\
    transfers (trace st') = transfers (trace st) ++ [(blk_start_at dfu offset, 0)] /\
    (transfer_answer hw op h (dev_num dfu) (blk_start_at dfu offset) 0 buf <> 0 ->
     r = - EIO).
Proof.
  intros Hm HB Hop Hex Hin h.
  assert (Hal : ALIGN 0 (lba_blk_size (data_mmc dfu)) = 0).
  { unfold ALIGN, round_up. rewrite Z.mod_0_l by lia. reflexivity. }
  assert (Hbc : blk_count_at dfu 0 = 0).
  { unfold blk_count_at. rewrite Hal. apply Z.div_0_l. lia. }
  rewrite (mmc_block_op_eq hw _ _ _ _ _ _ _ Hm HB), Hal, Hbc, Hex.
  destruct (mmc_block_transfer_spec hw op dfu buf 0 (blk_start_at dfu offset) 0 st m Hm)
    as (st' & Hrun & Htr & _).
  cbv zeta in Hrun, Htr. rewrite Hin in Hrun, Htr. cbn [Z.eqb] in Hrun, Htr.
  fold h in Hrun, Htr. rewrite Hrun. eexists; exists st'.
  split; [reflexivity|]. split.
  - rewrite Htr. unfold h.
    rewrite !transfers_app, transfers_switch_in, transfers_switch_back,
      transfers_transfer_events, !app_nil_r.
    destruct op; congruence.
  - intros Hn. apply Z.eqb_neq in Hn. rewrite Hn. reflexivity.
Qed.

Lemma zero_length_access_witness :
  exists r st',
    mmc_block_op hw_ok DFU_OP_WRITE (raw_entity 100 50 (- EINVAL)) (50 * 512) 0 0 st_one
      = Some ((r, 0), st') /\
    transfers (trace st') = transfers (trace st_one) ++ [(150, 0)].
Proof.
  destruct (zero_length_access hw_ok DFU_OP_WRITE (raw_entity 100 50 (- EINVAL))
              (50 * 512) 0 st_one mmc0)
    as (r & st' & Hrun & Htr & _).
  - reflexivity.
  - simpl. lia.
  - discriminate.
  - reflexivity.
  - reflexivity.
  - exists r, st'. split; [exact Hrun | exact Htr].
Defined.

(** X22.  The switch back is decided on the [part_num] field, which holds
    the low 8 bits of the configured partition number.  When that number
    and the partition active before differ by a multiple of 256, the
    access switches to the configured partition, makes the transfer and
    then makes no switch back: the device is left on the configured
    partition, the partition from before stays recorded as active, and
    the access returns 0 after a complete transfer. *)
Theorem switch_back_skipped_on_equal_low_bits hw op dfu offset buf len st m :
  lookup_mmc (dev_num dfu) (mmc_devices st) = Some m ->
  0 < lba_blk_size (data_mmc dfu) < 2 ^ 32 ->
  exceeds_area (data_mmc dfu) (blk_start_at dfu offset) (blk_count_at dfu len) = false ->
  needs_switch dfu m = true ->
  (hw_partition (data_mmc dfu) - part_num m) mod 256 = 0 ->
  mmc_switch_part hw (trace st) (dev_num dfu) (hw_partition (data_mmc dfu)) = 0 ->
  let d := dev_num dfu in
  let blk_start := blk_start_at dfu offset in
  let blk_count := blk_count_at dfu len in
  let h1 := trace st ++ [mmc_switch_part_call d (hw_partition (data_mmc dfu))] in
  let reported := transfer_answer hw op h1 d blk_start blk_count buf in
  exists r st',
    mmc_block_op hw op dfu offset buf len st
      = Some ((r, ALIGN len (lba_blk_size (data_mmc dfu))), st') /\
    trace st' = h1 ++ transfer_events op d blk_start blk_count buf /\
    active_part d st' = active_part d st /\
    (reported = blk_count -> r = 0) /\
    (reported <> blk_count -> r = - EIO).
Proof.
  intros Hm HB Hex Hsw Hlow Hin d blk_start blk_count h1 reported.
  assert (Hskip : needs_switch_back dfu m = false).
  { unfold needs_switch_back. rewrite Hsw.
    rewrite <- (to_char_part_num m), (to_char_congruent _ _ Hlow), Z.eqb_refl.
    reflexivity. }
  rewrite (mmc_block_op_eq hw _ _ _ _ _ _ _ Hm HB), Hex.
  destruct (mmc_block_transfer_spec hw op dfu buf
              (ALIGN len (lba_blk_size (data_mmc dfu))) blk_start blk_count st m Hm)
    as (st' & Hrun & Htr & Hact).
  cbv zeta in Hrun, Htr, Hact.
  unfold switch_in_answer, switch_in_events, switch_back_answer,
    switch_back_events in Hrun, Htr, Hact.
  rewrite Hskip in Hrun, Htr, Hact.
  rewrite Hsw, Hin in Hrun, Htr, Hact. cbn [Z.eqb andb] in Hrun, Htr, Hact.
  rewrite app_nil_r in Htr.
  fold d blk_start blk_count in Hrun, Htr, Hact |- *.
  fold h1 in Hrun, Htr. fold reported in Hrun.
  rewrite Hrun. eexists; exists st'. split; [reflexivity|].
  split; [exact Htr|]. split.
  - rewrite Hact. unfold active_part, d. rewrite Hm. reflexivity.
  - split; intros E.
    + apply Z.eqb_eq in E. rewrite E. reflexivity.
    + apply Z.eqb_neq in E. rewrite E. reflexivity.
Qed.

Lemma switch_back_skipped_on_equal_low_bits_witness :
  exists st',
    mmc_block_op hw_ok DFU_OP_WRITE (raw_entity 100 50 256) 0 0 512 st_one
      = Some ((0, 512), st') /\
    trace st' = [mmc_switch_part_call 0 256; block_write_call 0 100 1 0] /\
    active_part 0 st_one = Some 0 /\
    active_part 0 st' = Some 0.
Proof.
  destruct (switch_back_skipped_on_equal_low_bits hw_ok DFU_OP_WRITE
              (raw_entity 100 50 256) 0 0 512 st_one mmc0)
    as (r & st' & Hrun & Htr & Hact & Hfull & _).
  - reflexivity.
  - simpl. lia.
  - reflexivity.
  - reflexivity.
  - reflexivity.
  - reflexivity.
  - assert (Hr : r = 0) by (apply Hfull; reflexivity).
    subst r. exists st'. split; [exact Hrun|]. split; [exact Htr|].
    split; [reflexivity | exact Hact].
Defined.
